(** * rtconfig.manage: change detection and notification core

    A shallow embedding of [src/rtconfig/manage.py]: the [Message] value
    object, the [ConfigManager], the module-level subscriber registry
    ([connected], [connected_message], [config_store_state]) and the
    [notify_changed] dispatcher.

    Python statements are written in a small state-and-exception monad
    [Py S A]: a computation takes the mutable state [S] and returns the
    state it leaves behind together with either the exception it raised
    or its value.  A [try]/[except] keeps whatever the body had already
    written when the exception was raised, exactly as Python does.

    The coroutines of the module are run to completion where they are
    awaited: [await f(x)] is the call [f x].  What other tasks may do to
    the module state while one of them is suspended is outside this
    development. *)

From Stdlib Require Import ZArith String List Permutation Sorted OrderedTypeEx.
From stdpp Require Import base gmap strings list fin_maps sets pretty.

Local Open Scope string_scope.
Local Open Scope list_scope.
Local Set Warnings "-register-all,-clear-no-such-hyp".

(** ** Python exceptions and the [Py] monad *)

Inductive exn : Type :=
| KeyError
| ProjectNoFoundException (config_name : string)
| ExternalError (what : string).

Definition Py (S A : Type) : Type := S -> S * (exn + A).

Definition ret {S A : Type} (a : A) : Py S A := fun s => (s, inr a).

Definition raise {S A : Type} (e : exn) : Py S A := fun s => (s, inl e).

Definition bind {S A B : Type} (c : Py S A) (k : A -> Py S B) : Py S B :=
  fun s =>
    match c s with
    | (s', inr a) => k a s'
    | (s', inl e) => (s', inl e)
    end.

Definition get_state {S : Type} : Py S S := fun s => (s, inr s).

Definition modify {S : Type} (f : S -> S) : Py S unit := fun s => (f s, inr tt).

(** [try: body except KeyError: handler].  Only [KeyError] is caught; the
    handler starts from the state the body left. *)
Definition try_except_KeyError {S A : Type} (body handler : Py S A) : Py S A :=
  fun s =>
    match body s with
    | (s', inl KeyError) => handler s'
    | r => r
    end.

(** [pass] *)
Definition pass {S : Type} : Py S unit := ret tt.

Declare Scope py_scope.
Delimit Scope py_scope with py.
Notation "x <~ c ;;; k" := (bind c (fun x => k))
  (at level 100, c at next level, k at level 200, right associativity) : py_scope.
Notation "c ;;; k" := (bind c (fun _ => k))
  (at level 100, k at level 200, right associativity) : py_scope.

(** [for x in l: body x] *)
Fixpoint for_each {S A : Type} (l : list A) (body : A -> Py S unit) : Py S unit :=
  match l with
  | [] => ret tt
  | x :: l' => (body x ;;; for_each l' body)%py
  end.

Definition returns {S A : Type} (r : S * (exn + A)) : Prop :=
  exists a, snd r = inr a.

Definition raises {S A : Type} (r : S * (exn + A)) (e : exn) : Prop :=
  snd r = inl e.

(** ** JSON values and Python dicts

    A [dict] keeps its keys in insertion order, so it is an association
    list with distinct keys; [dict_setitem] overwrites in place or
    appends. *)

Inductive json : Type :=
| JNull
| JBool (b : bool)
| JNum (n : Z)
| JStr (s : string)
| JArr (items : list json)
| JObj (entries : list (string * json)).

Definition pydict : Type := list (string * json).

(** A document is the dict a backend reads and writes. *)
Definition document : Type := pydict.

Fixpoint dict_get (k : string) (d : pydict) : option json :=
  match d with
  | [] => None
  | (k', v) :: d' => if String.eqb k k' then Some v else dict_get k d'
  end.

Fixpoint dict_setitem (k : string) (v : json) (d : pydict) : pydict :=
  match d with
  | [] => [(k, v)]
  | (k', v') :: d' =>
      if String.eqb k k' then (k', v) :: d' else (k', v') :: dict_setitem k v d'
  end.

(** [dict(items)]: later items overwrite earlier ones. *)
Definition dict_of_items (items : list (string * string)) : pydict :=
  fold_left (fun d kv => dict_setitem (fst kv) (JStr (snd kv)) d) items [].

(** ** Message *)

Definition MT_NO_CHANGE : string := "nochange".
Definition MT_CHANGED : string := "changed".

Record Request : Type := { headers : list (string * string) }.

(** Dict objects that are shared and updated in place live in a heap;
    a location that was never written reads as the empty dict. *)
Definition loc : Type := nat.

Abbreviation heap := (gmap loc pydict).

Definition deref (h : heap) (l : loc) : pydict := default [] (h !! l).

(** The one dict that [attr.ib(default=dict())] builds when the class is
    created; every Message constructed without [context] refers to it. *)
Definition default_context : loc := 0.

(** The other dict built when the class is created, the default of
    [data]. *)
Definition default_data : loc := 1.

(** What an attribute that holds a dict refers to: a dict object of the
    heap, which other attributes may share and [to_dict] may update in
    place, or a dict object held elsewhere that nothing in this module
    updates in place (a manager's document handed to a new Message). *)
Inductive dict_ref : Type :=
| DictAt (l : loc)
| DictOf (d : pydict).

Definition deref_ref (h : heap) (r : dict_ref) : pydict :=
  match r with
  | DictAt l => deref h l
  | DictOf d => d
  end.

Module Message.

Record t : Type := {
  request : Request;
  message_type : string;
  config_name : string;
  hash_code : string;
  data : dict_ref;
  context : loc;
  lut : Z
}.

(** What [to_dict] returns: [context] is either the context dict itself
    or, with a non-zero [indent], its [json.dumps] rendering. *)
Record MessageDict : Type := {
  d_message_type : string;
  d_config_name : string;
  d_hash_code : string;
  d_data : dict_ref;
  d_context : loc + string;
  d_lut : string
}.

Section MessageMethods.

(** [json.dumps(obj, indent=...)], [rtconfig.utils.strftime] and
    [rtconfig.utils.convert_dt] are not part of this module. *)
Variable json_dumps : option nat -> json -> string.
Variable strftime : Z -> string.
Variable convert_dt : option Z -> Z.

(** [Message(request, message_type, config_name, hash_code, data=..., context=..., lut=...)] *)
Definition new (req : Request) (mt name hc : string)
    (data_arg : option dict_ref) (context_arg : option loc) (lut_arg : option Z) : t :=
  {| request := req;
     message_type := mt;
     config_name := name;
     hash_code := hc;
     data := default (DictAt default_data) data_arg;
     context := default default_context context_arg;
     lut := convert_dt lut_arg |}.

Definition to_dict (self : t) (indent : nat) : Py heap MessageDict :=
  (let context_ := context self in
   modify (fun h : heap =>
     <[context_ := dict_setitem "headers" (JObj (dict_of_items (headers (request self))))
                     (deref h context_)]> h) ;;;
   h' <~ get_state ;;;
   ret {| d_message_type := message_type self;
          d_config_name := config_name self;
          d_hash_code := hash_code self;
          d_data := data self;
          d_context := if Nat.eqb indent 0 then inl context_
                       else inr (json_dumps (Some indent) (JObj (deref h' context_)));
          d_lut := strftime (lut self) |})%py.

Definition compact_form (h : heap) (self : t) : json :=
  JObj [("message_type", JStr (message_type self));
        ("config_name", JStr (config_name self));
        ("hash_code", JStr (hash_code self));
        ("data", JObj (deref_ref h (data self)))].

(** [to_string] reads the four fields, the dict [data] refers to among
    them, and writes nothing. *)
Definition to_string (self : t) : Py heap string :=
  (h <~ get_state ;;; ret (json_dumps None (compact_form h self)))%py.

End MessageMethods.

(** The fields of a message as an observer reads them: [context] is the
    current content of the dict the attribute refers to. *)
Record MessageView : Type := {
  v_message_type : string;
  v_config_name : string;
  v_hash_code : string;
  v_data : pydict;
  v_context : pydict;
  v_lut : Z
}.

Definition view (h : heap) (m : t) : MessageView :=
  {| v_message_type := message_type m;
     v_config_name := config_name m;
     v_hash_code := hash_code m;
     v_data := deref_ref h (data m);
     v_context := deref h (context m);
     v_lut := lut m |}.

End Message.

(** ** ConfigManager *)

(** [rtconfig.backend.BaseBackend]: the storage a manager reads and
    writes, with whatever state [B] it keeps.  Both calls may raise. *)
Class BaseBackend (B : Type) : Type := {
  read : Py B document;
  write : document -> Py B unit
}.

Module ConfigManager.

Record t : Type := {
  config_name : string;
  store_directory : string;
  _source_data : document
}.

Definition with_source_data (value : document) (m : t) : t :=
  {| config_name := config_name m;
     store_directory := store_directory m;
     _source_data := value |}.

(** What the calls of one [update_config] do, in order. *)
Inductive event : Type :=
| EWrite (d : document)
| ERead
| ENotify (i : nat) (m : t).

(** The state a method of one manager runs in: the manager object, its
    [store_backend], the state [H] the notification handlers work on, and
    the calls made so far. *)
Record world (B H : Type) : Type := {
  self : t;
  store_backend : B;
  env : H;
  trace : list event
}.
Arguments self {B H} _.
Arguments store_backend {B H} _.
Arguments env {B H} _.
Arguments trace {B H} _.

Section Methods.

Context {B H : Type} `{BaseBackend B}.

(** [rtconfig.utils.to_hash] is not part of this module. *)
Variable to_hash : document -> string.
Variable json_dumps : option nat -> json -> string.
Variable convert_dt : option Z -> Z.

Definition log (e : event) : Py (world B H) unit :=
  modify (fun w => {| self := self w; store_backend := store_backend w;
                      env := env w; trace := trace w ++ [e] |}).

(** [self.store_backend.read()] *)
Definition store_backend_read : Py (world B H) document :=
  (log ERead ;;;
   fun w =>
     let '(b, r) := read (store_backend w) in
     ({| self := self w; store_backend := b; env := env w; trace := trace w |}, r))%py.

(** [self.store_backend.write(d)] *)
Definition store_backend_write (d : document) : Py (world B H) unit :=
  (log (EWrite d) ;;;
   fun w =>
     let '(b, r) := write d (store_backend w) in
     ({| self := self w; store_backend := b; env := env w; trace := trace w |}, r))%py.

(** [await handler(self)], for the [i]-th handler of the iteration.  A
    handler reads the manager it is given and works on [H]; like
    [notify_changed], it assigns no attribute of the manager. *)
Definition call_handler (i : nat) (handler : t -> Py H unit) : Py (world B H) unit :=
  ((fun w => log (ENotify i (self w)) w) ;;;
   fun w =>
     let '(h, r) := handler (self w) (env w) in
     ({| self := self w; store_backend := store_backend w; env := h; trace := trace w |}, r))%py.

(** The [source_data] property and its setter. *)
Definition source_data : Py (world B H) document :=
  fun w => (w, inr (_source_data (self w))).

Definition set_source_data (value : document) : Py (world B H) unit :=
  modify (fun w => {| self := with_source_data value (self w);
                      store_backend := store_backend w; env := env w; trace := trace w |}).

Definition hash_code (m : t) : string := to_hash (_source_data m).

(** [self._source_data = self.store_backend.read()]: nothing is
    assigned when [read] raises. *)
Definition refresh : Py (world B H) unit :=
  (d <~ store_backend_read ;;; set_source_data d)%py.

(** [rtconfig.config.STORE_DIRECTORY] *)
Variable STORE_DIRECTORY : string.

(** [store_directory or STORE_DIRECTORY]: [None] and the empty string
    are both falsy. *)
Definition store_directory_or_default (store_directory_arg : option string) : string :=
  match store_directory_arg with
  | Some d => if String.eqb d EmptyString then STORE_DIRECTORY else d
  | None => STORE_DIRECTORY
  end.

(** [ConfigManager(config_name, store_directory=...)]: the attributes
    are assigned, [_source_data] to [{}], and [refresh] is called.  The
    backend object built from the directory and the name is the
    [BaseBackend] instance at hand, over the store [b]; [h] is the
    state of the handlers. *)
Definition __init__ (config_name_arg : string) (store_directory_arg : option string)
    (b : B) (h : H) : world B H * (exn + unit) :=
  refresh {| self := {| config_name := config_name_arg;
                        store_directory := store_directory_or_default store_directory_arg;
                        _source_data := [] |};
             store_backend := b;
             env := h;
             trace := [] |}.

(** [_notify_handler] is a set of functions held by the class;
    [handlers] lists it in the order the [for] loop walks it. *)
Definition update_config (handlers : list (t -> Py H unit)) : Py (world B H) unit :=
  (d <~ source_data ;;;
   store_backend_write d ;;;
   refresh ;;;
   for_each (combine (seq 0 (length handlers)) handlers)
            (fun ih => call_handler (fst ih) (snd ih)))%py.

(** [Message(request, MT_CHANGED, self.config_name, self.hash_code,
    self.source_data).to_string()].  The message is new, its [data] is
    the manager's document and [to_string] reads no other dict, so the
    text does not depend on the heap of the dicts that messages share. *)
Definition config_message {S : Type} (m : t) (req : Request) : Py S string :=
  fun s =>
    (s, snd (Message.to_string json_dumps
               (Message.new convert_dt req MT_CHANGED (config_name m) (hash_code m)
                            (Some (DictOf (_source_data m))) None None) ∅)).

End Methods.

End ConfigManager.

(** ** Module-level state: [connected], [connected_message], [config_store_state] *)

(** A connection handle (a websocket object, hashed by identity). *)
Definition conn : Type := nat.

Record globals : Type := {
  connected : gmap string (gset conn);
  connected_message : gmap conn Message.t;
  config_store_state : gmap string ConfigManager.t
}.

Definition set_connected (f : gmap string (gset conn) -> gmap string (gset conn))
    (g : globals) : globals :=
  {| connected := f (connected g);
     connected_message := connected_message g;
     config_store_state := config_store_state g |}.

Definition set_connected_message (f : gmap conn Message.t -> gmap conn Message.t)
    (g : globals) : globals :=
  {| connected := connected g;
     connected_message := f (connected_message g);
     config_store_state := config_store_state g |}.

Definition set_config_store_state
    (f : gmap string ConfigManager.t -> gmap string ConfigManager.t)
    (g : globals) : globals :=
  {| connected := connected g;
     connected_message := connected_message g;
     config_store_state := f (config_store_state g) |}.

(** [connected[name]] *)
Definition connected_getitem (name : string) : Py globals (gset conn) :=
  fun g =>
    match connected g !! name with
    | Some s => (g, inr s)
    | None => (g, inl KeyError)
    end.

(** [connected[name].add(ws)] *)
Definition connected_add (name : string) (ws : conn) : Py globals unit :=
  (s <~ connected_getitem name ;;;
   modify (set_connected (fun c => <[name := s ∪ {[ws]}]> c)))%py.

(** [connected[name].remove(ws)]: [set.remove] raises [KeyError] on a
    missing element. *)
Definition connected_remove (name : string) (ws : conn) : Py globals unit :=
  (s <~ connected_getitem name ;;;
   if decide (ws ∈ s)
   then modify (set_connected (fun c => <[name := s ∖ {[ws]}]> c))
   else raise KeyError)%py.

(** [connected_message[ws] = message] *)
Definition connected_message_setitem (ws : conn) (message : Message.t) : Py globals unit :=
  modify (set_connected_message (fun c => <[ws := message]> c)).

(** [del connected_message[ws]] *)
Definition connected_message_delitem (ws : conn) : Py globals unit :=
  fun g =>
    match connected_message g !! ws with
    | Some _ => (set_connected_message (fun c => delete ws c) g, inr tt)
    | None => (g, inl KeyError)
    end.

(** [config_store_state[name]] *)
Definition get_config_store (name : string) : Py globals ConfigManager.t :=
  try_except_KeyError
    (fun g =>
       match config_store_state g !! name with
       | Some m => (g, inr m)
       | None => (g, inl KeyError)
       end)
    (raise (ProjectNoFoundException name)).

Definition register_connected_ws (message : Message.t) (ws : conn) : Py globals unit :=
  try_except_KeyError
    (s <~ connected_getitem (Message.config_name message) ;;;
     (if decide (ws ∉ s)
      then connected_add (Message.config_name message) ws
      else pass) ;;;
     connected_message_setitem ws message)%py
    (raise (ProjectNoFoundException (Message.config_name message))).

Definition remove_connected_ws (config_name : string) (ws : conn) : Py globals unit :=
  (try_except_KeyError (connected_remove config_name ws) pass ;;;
   try_except_KeyError (connected_message_delitem ws) pass)%py.

(** ** The dispatcher *)

(** The running process: the module globals, the transport layer with
    its own state [T], and the [send] calls made so far. *)
Record process (T : Type) : Type := {
  module : globals;
  transport : T;
  sent : list (conn * string)
}.
Arguments module {T} _.
Arguments transport {T} _.
Arguments sent {T} _.

Section Dispatcher.

Context {T : Type}.

(** [client.send(payload)] of the transport layer; it may raise. *)
Variable send : conn -> string -> Py T unit.

Variable to_hash : document -> string.
Variable json_dumps : option nat -> json -> string.
Variable convert_dt : option Z -> Z.

Definition on_module {A : Type} (c : Py globals A) : Py (process T) A :=
  fun p =>
    let '(g, r) := c (module p) in
    ({| module := g; transport := transport p; sent := sent p |}, r).

(** [await client.send(payload)] *)
Definition client_send (client : conn) (payload : string) : Py (process T) unit :=
  (modify (fun p => {| module := module p; transport := transport p;
                       sent := sent p ++ [(client, payload)] |}) ;;;
   fun p =>
     let '(t, r) := send client payload (transport p) in
     ({| module := module p; transport := t; sent := sent p |}, r))%py.

(** [connected.get(name) or []], as the [for] loop walks it. *)
Definition clients_of (name : string) : Py globals (list conn) :=
  fun g =>
    match connected g !! name with
    | Some s => (g, inr (if decide (s = ∅) then [] else elements s))
    | None => (g, inr [])
    end.

(** [connected_message.get(client)] *)
Definition connected_message_get (client : conn) : Py globals (option Message.t) :=
  fun g => (g, inr (connected_message g !! client)).

(** The body of the [for] loop; [continue] is [pass]. *)
Definition notify_client (config_store : ConfigManager.t) (client : conn)
    : Py (process T) unit :=
  (message <~ on_module (connected_message_get client) ;;;
   match message with
   | None => pass
   | Some message =>
       if negb (String.eqb (Message.config_name message)
                           (ConfigManager.config_name config_store))
       then pass
       else if negb (String.eqb (ConfigManager.hash_code to_hash config_store)
                                (Message.hash_code message))
       then pass
       else
         payload <~ ConfigManager.config_message to_hash json_dumps convert_dt
                      config_store (Message.request message) ;;;
         client_send client payload
   end)%py.

Definition notify_changed (config_store : ConfigManager.t) : Py (process T) unit :=
  (on_module (modify (set_config_store_state
     (fun c => <[ConfigManager.config_name config_store := config_store]> c))) ;;;
   clients <~ on_module (clients_of (ConfigManager.config_name config_store)) ;;;
   for_each clients (notify_client config_store))%py.

End Dispatcher.

(** ** The fingerprint function *)

Module Fingerprint.

(** Entries ordered by key, by insertion. *)
Fixpoint insert_entry (e : string * json) (l : list (string * json))
    : list (string * json) :=
  match l with
  | [] => [e]
  | e' :: l' =>
      if String.leb (fst e) (fst e') then e :: l else e' :: insert_entry e l'
  end.

Definition sort_entries (l : list (string * json)) : list (string * json) :=
  fold_right insert_entry [] l.

(** Keys sorted at every level of nesting. *)
Fixpoint canonical (j : json) : json :=
  match j with
  | JArr items => JArr (map canonical items)
  | JObj entries =>
      JObj (sort_entries (map (fun kv => (fst kv, canonical (snd kv))) entries))
  | _ => j
  end.

Section Digest.

Variable json_dumps : option nat -> json -> string.
Variable digest : string -> string.

(** Modelled from the spec: [rtconfig.utils.to_hash] is imported by
    [manage.py] but its source is not part of this module.  The spec
    describes it as: canonicalize the document (sort keys recursively,
    serialize to a fixed textual form), then apply a stable digest. *)
Definition to_hash (d : document) : string :=
  digest (json_dumps None (canonical (JObj d))).

End Digest.

(** A dict has distinct keys, at every level. *)
Fixpoint wf_json (j : json) : bool :=
  match j with
  | JArr items => forallb wf_json items
  | JObj entries =>
      bool_decide (NoDup (map fst entries))
      && forallb (fun kv => wf_json (snd kv)) entries
  | _ => true
  end.

(** Equal key/value content: Python's [==] on dicts and lists, which
    ignores the order in which the keys of a dict were inserted. *)
Inductive same_content : json -> json -> Prop :=
| same_null : same_content JNull JNull
| same_bool b : same_content (JBool b) (JBool b)
| same_num n : same_content (JNum n) (JNum n)
| same_str s : same_content (JStr s) (JStr s)
| same_arr l1 l2 :
    Forall2 same_content l1 l2 -> same_content (JArr l1) (JArr l2)
| same_obj d1 d2 :
    (forall k, option_Forall2 same_content (dict_get k d1) (dict_get k d2)) ->
    same_content (JObj d1) (JObj d2).

End Fingerprint.

(** ** Properties of the registry and of one broadcast pass *)

(** Every connection with a stored message is subscribed to the config
    that message names. *)
Definition consistent (g : globals) : Prop :=
  forall (ws : conn) (message : Message.t),
    connected_message g !! ws = Some message ->
    exists s, connected g !! Message.config_name message = Some s /\ ws ∈ s.

Inductive call : Type :=
| Register (message : Message.t) (ws : conn)
| Remove (config_name : string) (ws : conn).

Definition run_call (c : call) : Py globals unit :=
  match c with
  | Register message ws => register_connected_ws message ws
  | Remove config_name ws => remove_connected_ws config_name ws
  end.

(** A sequence of calls made one after the other by the transport
    layer; a call that raises leaves its state to the next one. *)
Definition run_calls (cs : list call) (g : globals) : globals :=
  fold_left (fun g c => fst (run_call c g)) cs g.

(** The subscriber set of a config name ([∅] when there is none). *)
Definition subscribers (g : globals) (name : string) : gset conn :=
  default ∅ (connected g !! name).

(** The stored message of [c] names the manager's config and carries
    the manager's current fingerprint. *)
Definition qualifies (to_hash : document -> string) (g : globals)
    (M : ConfigManager.t) (c : conn) : Prop :=
  exists message,
    connected_message g !! c = Some message
    /\ Message.config_name message = ConfigManager.config_name M
    /\ Message.hash_code message = ConfigManager.hash_code to_hash M.

(** The [send] call one pass makes for [c], if it makes one: the
    payload is [config_message] on the request kept in [c]'s stored
    message. *)
Definition target (to_hash : document -> string)
    (json_dumps : option nat -> json -> string) (convert_dt : option Z -> Z)
    (stored : gmap conn Message.t) (M : ConfigManager.t) (c : conn)
    : option (conn * string) :=
  match stored !! c with
  | Some message =>
      if String.eqb (Message.config_name message) (ConfigManager.config_name M)
         && String.eqb (ConfigManager.hash_code to_hash M) (Message.hash_code message)
      then
        match ConfigManager.config_message to_hash json_dumps convert_dt M
                (Message.request message) tt with
        | (_, inr payload) => Some (c, payload)
        | (_, inl _) => None
        end
      else None
  | None => None
  end.

(** The [send] calls a pass for [M] is due to make, in the order in
    which the loop walks the subscriber set. *)
Definition due (to_hash : document -> string)
    (json_dumps : option nat -> json -> string) (convert_dt : option Z -> Z)
    (g : globals) (M : ConfigManager.t) : list (conn * string) :=
  omap (target to_hash json_dumps convert_dt (connected_message g) M)
       (match snd (clients_of (ConfigManager.config_name M) g) with
        | inr l => l
        | inl _ => []
        end).

(** What making a list of [send] calls comes to when the first one that
    raises ends it: the transport it leaves, the outcome, and the calls
    made, the raising one included. *)
Fixpoint send_until_raise {T : Type} (send : conn -> string -> Py T unit)
    (calls : list (conn * string)) (t : T)
    : T * (exn + unit) * list (conn * string) :=
  match calls with
  | [] => (t, inr tt, [])
  | call :: rest =>
      match send (fst call) (snd call) t with
      | (t', inr _) =>
          let '(t'', r, made) := send_until_raise send rest t' in
          (t'', r, call :: made)
      | (t', inl e) => (t', inl e, [call])
      end
  end.

(** The same for a list of notification callbacks given the manager
    [m]: the handler state left, the outcome, and how many were called. *)
Fixpoint call_until_raise {H : Type} (handlers : list (ConfigManager.t -> Py H unit))
    (m : ConfigManager.t) (h : H) : H * (exn + unit) * nat :=
  match handlers with
  | [] => (h, inr tt, 0)
  | handler :: rest =>
      match handler m h with
      | (h', inr _) =>
          let '(h'', r, k) := call_until_raise rest m h' in
          (h'', r, S k)
      | (h', inl e) => (h', inl e, 1)
      end
  end.

(** The [send] calls made between two states of the process. *)
Definition pass_sends {T : Type} (p p' : process T) : list (conn * string) :=
  drop (length (sent p)) (sent p').

(** Read after write returns the written document. *)
Definition faithful (B : Type) `{BaseBackend B} : Prop :=
  forall (d : document) (b b' : B),
    write d b = (b', inr tt) -> exists b'', read b' = (b'', inr d).

(** An update with [D]: the caller assigns [source_data] and calls
    [update_config]. *)
Definition update_with {B H : Type} `{BaseBackend B}
    (handlers : list (ConfigManager.t -> Py H unit)) (D : document)
    : Py (ConfigManager.world B H) unit :=
  (ConfigManager.set_source_data D ;;; ConfigManager.update_config handlers)%py.

(** The notifications of a trace, in order. *)
Definition notified (tr : list ConfigManager.event) : list (nat * ConfigManager.t) :=
  omap (fun e => match e with
                 | ConfigManager.ENotify i m => Some (i, m)
                 | _ => None
                 end) tr.


(** ** Concrete states used to run the definitions *)

Definition req0 : Request := {| headers := [("Host", "example.org")] |}.

(** A subscription request for config ["app"] carrying fingerprint [hc]. *)
Definition msg_app (hc : string) : Message.t :=
  {| Message.request := req0;
     Message.message_type := MT_NO_CHANGE;
     Message.config_name := "app";
     Message.hash_code := hc;
     Message.data := DictAt default_data;
     Message.context := default_context;
     Message.lut := 0 |}.

(** A message built with one dict, at location 5, for both [data] and
    [context]. *)
Definition msg_one_dict : Message.t :=
  {| Message.request := req0;
     Message.message_type := MT_NO_CHANGE;
     Message.config_name := "app";
     Message.hash_code := "h1";
     Message.data := DictAt 5;
     Message.context := 5;
     Message.lut := 0 |}.

(** No config was discovered at start-up. *)
Definition g_none : globals :=
  {| connected := ∅; connected_message := ∅; config_store_state := ∅ |}.

(** Config ["app"] was discovered; nobody is subscribed yet. *)
Definition g_app : globals :=
  {| connected := {["app" := ∅]}; connected_message := ∅; config_store_state := ∅ |}.

(** A store the process may read but not write. *)
Definition readonly_backend : BaseBackend document :=
  {| read := fun b => (b, inr b);
     write := fun _ b => (b, inl (ExternalError "read-only file system")) |}.

(** A store that keeps the last document written. *)
Definition file_backend : BaseBackend document :=
  {| read := fun b => (b, inr b);
     write := fun d _ => (d, inr tt) |}.

Definition mgr_app (d : document) : ConfigManager.t :=
  {| ConfigManager.config_name := "app";
     ConfigManager.store_directory := "/var/rtconfig";
     ConfigManager._source_data := d |}.

(** Manager ["app"] holding [d], over an empty store, nothing called
    yet; [h] is the state the handlers work on. *)
Definition world0 {H : Type} (d : document) (h : H) : ConfigManager.world document H :=
  {| ConfigManager.self := mgr_app d;
     ConfigManager.store_backend := [];
     ConfigManager.env := h;
     ConfigManager.trace := [] |}.

(** A second registered handler that raises, and one that returns. *)
Definition handler_raises {H : Type} (what : string) : ConfigManager.t -> Py H unit :=
  fun _ => raise (ExternalError what).

Definition handler_returns {H : Type} : ConfigManager.t -> Py H unit :=
  fun _ => pass.

Definition doc_a1 : document := [("a", JNum 1)].

(** A transport on which every [send] raises. *)
Definition send_closed : conn -> string -> Py unit unit :=
  fun _ _ => raise (ExternalError "connection closed").

(** A transport that delivers: its state is what was delivered. *)
Definition send_ok : conn -> string -> Py (list (conn * string)) unit :=
  fun c payload => modify (fun t => t ++ [(c, payload)]).

(** Connections 7 and 8 are subscribed to ["app"]; 7 holds fingerprint
    [h7] and 8 holds [h8]. *)
Definition g_two (h7 h8 : string) : globals :=
  {| connected := {["app" := {[7; 8]}]};
     connected_message := {[7 := msg_app h7; 8 := msg_app h8]};
     config_store_state := ∅ |}.

Definition process0 {T : Type} (g : globals) (t : T) : process T :=
  {| module := g; transport := t; sent := [] |}.

(** [notify_changed] as registered by the module, over a transport on
    which every [send] raises, and over one that delivers.  The
    fingerprint of every document is taken to be ["h1"]. *)
Definition notify_changed_closed : ConfigManager.t -> Py (process unit) unit :=
  notify_changed send_closed (fun _ => "h1") (fun _ _ => "payload") (fun _ => 0%Z).

Definition notify_changed_ok : ConfigManager.t -> Py (process (list (conn * string))) unit :=
  notify_changed send_ok (fun _ => "h1") (fun _ _ => "payload") (fun _ => 0%Z).

(** A plain textual rendering of JSON values, to run [to_hash] on. *)
Fixpoint render (j : json) : string :=
  match j with
  | JNull => "null"
  | JBool true => "true"
  | JBool false => "false"
  | JNum n => pretty n
  | JStr s => String.append "'" (String.append s "'")
  | JArr items =>
      String.append "[" (String.append (String.concat "," (map render items)) "]")
  | JObj entries =>
      String.append "{"
        (String.append
           (String.concat ","
              (map (fun kv => String.append (fst kv) (String.append ":" (render (snd kv))))
                   entries))
           "}")
  end.

(** One document written with its keys in two different orders. *)
Definition doc_ab : document :=
  [("a", JNum 1); ("b", JObj [("x", JStr "s"); ("y", JArr [JNull; JBool true])])].

Definition doc_ba : document :=
  [("b", JObj [("y", JArr [JNull; JBool true]); ("x", JStr "s")]); ("a", JNum 1)].

(** ** The rest of the module: [display_info] and [init_config_store] *)

(** What [display_info] returns. *)
Record DisplayInfo : Type := {
  di_config_name : string;
  connect_num : nat;
  di_source_data : string
}.

(** [len(connected.get(name) or [])] *)
Definition connected_len (name : string) : Py globals nat :=
  fun g =>
    match connected g !! name with
    | Some s => (g, inr (if decide (s = ∅) then 0 else size s))
    | None => (g, inr 0)
    end.

Definition display_info (json_dumps : option nat -> json -> string)
    (self : ConfigManager.t) : Py globals DisplayInfo :=
  (n <~ connected_len (ConfigManager.config_name self) ;;;
   ret {| di_config_name := ConfigManager.config_name self;
          connect_num := n;
          di_source_data := json_dumps (Some 4) (JObj (ConfigManager._source_data self)) |})%py.

(** The keys of [extension_backend]. *)
Definition extension_backend : list string := [".json"].

(** [connected.setdefault(name, set())] *)
Definition connected_setdefault (name : string) : Py globals unit :=
  modify (set_connected (fun c =>
    match c !! name with
    | Some _ => c
    | None => <[name := ∅]> c
    end)).

(** The module globals together with the file system [F] of the host. *)
Record startup (F : Type) : Type := {
  st_module : globals;
  fs : F
}.
Arguments st_module {F} _.
Arguments fs {F} _.

Section InitConfigStore.

Context {F : Type}.

(** [rtconfig.config.STORE_DIRECTORY], the calls of [rtconfig.utils.OSUtils],
    [os.path.splitext], and the backend [JsonFileBackend(directory, name)]
    are not part of this module.  [walk] gives the [file_names] of each
    directory visited, as listed when the loop starts. *)
Variable STORE_DIRECTORY : string.
Variable abspath : string -> string.
Variable directory_exists : string -> F -> bool.
Variable makedirs : string -> Py F unit.
Variable walk : string -> F -> list (list string).
Variable splitext : string -> string * string.
Variable backend_of : string -> string -> BaseBackend F.

Definition on_globals {A : Type} (c : Py globals A) : Py (startup F) A :=
  fun st =>
    let '(g, r) := c (st_module st) in
    ({| st_module := g; fs := fs st |}, r).

Definition on_fs {A : Type} (c : Py F A) : Py (startup F) A :=
  fun st =>
    let '(f, r) := c (fs st) in
    ({| st_module := st_module st; fs := f |}, r).

(** [ConfigManager(config_name)] *)
Definition new_ConfigManager (config_name : string) : Py (startup F) ConfigManager.t :=
  fun st =>
    let '(w, r) :=
      @ConfigManager.__init__ F unit (backend_of STORE_DIRECTORY config_name)
        STORE_DIRECTORY config_name None (fs st) tt in
    ({| st_module := st_module st; fs := ConfigManager.store_backend w |},
     match r with
     | inr _ => inr (ConfigManager.self w)
     | inl e => inl e
     end).

(** The body of the inner [for] loop; [continue] is [pass]. *)
Definition load_file (file_name : string) : Py (startup F) unit :=
  (if negb (bool_decide (snd (splitext file_name) ∈ extension_backend))
   then pass
   else
     m <~ new_ConfigManager (fst (splitext file_name)) ;;;
     on_globals (modify (set_config_store_state
                           (fun c => <[fst (splitext file_name) := m]> c))) ;;;
     on_globals (connected_setdefault (fst (splitext file_name))))%py.

Definition init_config_store : Py (startup F) unit :=
  (on_globals (modify (set_config_store_state (fun _ => ∅))) ;;;
   st <~ get_state ;;;
   (if negb (directory_exists (abspath STORE_DIRECTORY) (fs st))
    then on_fs (makedirs (abspath STORE_DIRECTORY))
    else pass) ;;;
   st' <~ get_state ;;;
   for_each (walk (abspath STORE_DIRECTORY) (fs st'))
     (fun file_names => for_each file_names load_file))%py.

(** The config names the walked files give: the root of every file
    name whose extension has a backend. *)
Definition discovered (files : list string) : gset string :=
  list_to_set
    (omap (fun file_name =>
             if bool_decide (snd (splitext file_name) ∈ extension_backend)
             then Some (fst (splitext file_name))
             else None) files).

End InitConfigStore.

(** Every manager of the table is stored under its own config name. *)
Definition keyed_by_name (g : globals) : Prop :=
  forall (name : string) (m : ConfigManager.t),
    config_store_state g !! name = Some m -> ConfigManager.config_name m = name.

(** A store of one document per config name, as a directory of JSON
    files gives: reading a name that has no document raises. *)
Definition dir_backend (name : string) : BaseBackend (gmap string document) :=
  {| read := fun f =>
       match f !! name with
       | Some d => (f, inr d)
       | None => (f, inl (ExternalError "no such file"))
       end;
     write := fun d f => (<[name := d]> f, inr tt) |}.

(** Configs ["app"] and ["web"] were discovered; nobody is subscribed. *)
Definition g_app_web : globals :=
  {| connected := {["app" := ∅; "web" := ∅]};
     connected_message := ∅;
     config_store_state := ∅ |}.

(** A subscription request for config ["web"] carrying fingerprint [hc]. *)
Definition msg_web (hc : string) : Message.t :=
  {| Message.request := req0;
     Message.message_type := MT_NO_CHANGE;
     Message.config_name := "web";
     Message.hash_code := hc;
     Message.data := DictAt default_data;
     Message.context := default_context;
     Message.lut := 0 |}.

(** A store whose content cannot be read back. *)
Definition unreadable_backend : BaseBackend document :=
  {| read := fun b => (b, inl (ExternalError "invalid JSON"));
     write := fun d _ => (d, inr tt) |}.

(** A store that writes documents with their keys sorted. *)
Definition sorting_backend : BaseBackend document :=
  {| read := fun b => (b, inr b);
     write := fun d _ => (Fingerprint.sort_entries d, inr tt) |}.

(** A store directory holding [app.json], [notes.txt] and [web.json]. *)
Definition fs_two : gmap string document := {["app" := doc_a1; "web" := doc_ab]}.

Definition walk_two : string -> gmap string document -> list (list string) :=
  fun _ _ => [["app.json"; "notes.txt"; "web.json"]].

(** [os.path.splitext] on the three file names above. *)
Definition splitext_two (file_name : string) : string * string :=
  if String.eqb file_name "app.json" then ("app", ".json")
  else if String.eqb file_name "web.json" then ("web", ".json")
  else if String.eqb file_name "notes.txt" then ("notes", ".txt")
  else (file_name, EmptyString).

(** Start-up over that directory. *)
Definition init_two : Py (startup (gmap string document)) unit :=
  init_config_store "/var/rtconfig" (fun path => path) (fun _ _ => true)
    (fun _ => pass) walk_two splitext_two (fun _ name => dir_backend name).

(** * Theorems *)

(** Unfolds the monad's combinators and the primitive operations on the
    module globals, leaving the lookups they branch on. *)
Ltac py_unfold :=
  cbv beta iota zeta delta
    [bind ret raise modify pass get_state try_except_KeyError
     connected_getitem connected_add connected_remove
     connected_message_setitem connected_message_delitem
     connected_message_get].

(** ** The subscriber registry *)

Lemma union_singleton_id (s : gset conn) (ws : conn) : ws ∈ s -> s ∪ {[ws]} = s.
Proof. set_solver. Qed.

Lemma difference_singleton_id (s : gset conn) (ws : conn) : ws ∉ s -> s ∖ {[ws]} = s.
Proof. set_solver. Qed.

Section RegistryFacts.

Implicit Types (g : globals) (ws : conn) (message : Message.t) (name : string).

(** What one registration does, in closed form. *)
Lemma register_connected_ws_eq message ws g :
  register_connected_ws message ws g =
  match connected g !! Message.config_name message with
  | None => (g, inl (ProjectNoFoundException (Message.config_name message)))
  | Some s =>
      ({| connected := <[Message.config_name message := s ∪ {[ws]}]> (connected g);
          connected_message := <[ws := message]> (connected_message g);
          config_store_state := config_store_state g |}, inr tt)
  end.
Proof.
  unfold register_connected_ws. py_unfold.
  destruct (connected g !! Message.config_name message) as [s|] eqn:Hs; [|done].
  destruct (decide (ws ∉ s)) as [Hnot|Hin]; simpl.
  - rewrite Hs. done.
  - apply dec_stable in Hin.
    rewrite (union_singleton_id _ _ Hin).
    rewrite (insert_id _ _ _ Hs). by destruct g.
Qed.

(** What one removal does, in closed form. *)
Lemma remove_connected_ws_eq name ws g :
  remove_connected_ws name ws g =
  ({| connected :=
        match connected g !! name with
        | Some s => <[name := s ∖ {[ws]}]> (connected g)
        | None => connected g
        end;
      connected_message := delete ws (connected_message g);
      config_store_state := config_store_state g |}, inr tt).
Proof.
  unfold remove_connected_ws. py_unfold.
  destruct (connected g !! name) as [s|] eqn:Hs; simpl.
  - destruct (decide (ws ∈ s)) as [Hin|Hnot]; simpl.
    + destruct (connected_message g !! ws) eqn:Hm; simpl; [done|].
      by rewrite (delete_id _ _ Hm).
    + rewrite (difference_singleton_id _ _ Hnot).
      rewrite (insert_id _ _ _ Hs).
      destruct (connected_message g !! ws) eqn:Hm; simpl.
      * by destruct g.
      * rewrite (delete_id _ _ Hm). by destruct g.
  - destruct (connected_message g !! ws) eqn:Hm; simpl.
    + by destruct g.
    + rewrite (delete_id _ _ Hm). by destruct g.
Qed.

Lemma register_connected_ws_consistent message ws g :
  consistent g -> consistent (fst (register_connected_ws message ws g)).
Proof.
  intros Hg. rewrite register_connected_ws_eq.
  destruct (connected g !! Message.config_name message) as [s|] eqn:Hs; [|done].
  intros ws' m'. simpl. intros Hm'.
  destruct (decide (ws = ws')) as [<-|Hne].
  - rewrite lookup_insert_eq in Hm'. simplify_eq.
    eexists. split; [apply lookup_insert_eq|set_solver].
  - rewrite lookup_insert_ne in Hm' by done.
    destruct (Hg _ _ Hm') as (s' & Hs' & Hin).
    destruct (decide (Message.config_name message = Message.config_name m')) as [Heq|Hn].
    + rewrite <- Heq in *. simplify_eq.
      eexists. split; [apply lookup_insert_eq|set_solver].
    + exists s'. by rewrite lookup_insert_ne.
Qed.

Lemma remove_connected_ws_consistent name ws g :
  consistent g -> consistent (fst (remove_connected_ws name ws g)).
Proof.
  intros Hg. rewrite remove_connected_ws_eq.
  intros ws' m'. simpl. intros Hm'.
  apply lookup_delete_Some in Hm' as [Hne Hm'].
  destruct (Hg _ _ Hm') as (s' & Hs' & Hin).
  destruct (connected g !! name) as [s|] eqn:Hs; [|by eauto].
  destruct (decide (name = Message.config_name m')) as [->|Hn].
  - simplify_eq.
    eexists. split; [apply lookup_insert_eq|set_solver].
  - exists s'. by rewrite lookup_insert_ne.
Qed.

End RegistryFacts.

(** Looking up a config name with no live manager raises "config not
    found" and changes nothing. *)
Lemma get_config_store_missing (name : string) (g : globals) :
  config_store_state g !! name = None ->
  get_config_store name g = (g, inl (ProjectNoFoundException name)).
Proof. intros Hm. unfold get_config_store. py_unfold. by rewrite Hm. Qed.

(** C5: [register_connected_ws] raises "config not found" exactly when
    the message's config name has no entry in [connected]; otherwise it
    returns, the config's subscriber set gains the connection (and is
    unchanged when the connection was already in it), the connection's
    stored message is the given one, and a second identical call changes
    nothing. *)
Theorem register_connected_ws_spec (message : Message.t) (ws : conn) (g : globals) :
  (connected g !! Message.config_name message = None <->
   raises (register_connected_ws message ws g)
          (ProjectNoFoundException (Message.config_name message)))
  /\ (is_Some (connected g !! Message.config_name message) <->
      returns (register_connected_ws message ws g))
  /\ (forall s, connected g !! Message.config_name message = Some s ->
        register_connected_ws message ws g =
          ({| connected := <[Message.config_name message := s ∪ {[ws]}]> (connected g);
              connected_message := <[ws := message]> (connected_message g);
              config_store_state := config_store_state g |}, inr tt)
        /\ (ws ∈ s -> connected (fst (register_connected_ws message ws g)) = connected g))
  /\ (forall g', register_connected_ws message ws g = (g', inr tt) ->
        register_connected_ws message ws g' = (g', inr tt)).
Proof.
  rewrite register_connected_ws_eq.
  destruct (connected g !! Message.config_name message) as [s|] eqn:Hs.
  - split; [|split; [|split]].
    + split; [done|]. unfold raises. simpl. done.
    + split; [by exists tt|by eauto].
    + intros s' [= <-]. split; [done|].
      intros Hin. simpl. rewrite (union_singleton_id _ _ Hin). by apply insert_id.
    + intros g' [= <-]. rewrite register_connected_ws_eq. simpl.
      rewrite lookup_insert_eq, !insert_insert_eq.
      by replace (s ∪ {[ws]} ∪ {[ws]}) with (s ∪ {[ws]}) by set_solver.
  - split; [|split; [|split]].
    + done.
    + split; [by intros [? ?]|]. intros [? Hr]. simpl in Hr. done.
    + done.
    + intros g' [=].
Qed.

(** C6: [remove_connected_ws] never raises, whatever the config name and
    the connection: the connection leaves the named subscriber set and
    the last-message map, what is absent is left as it is, and a second
    removal changes nothing. *)
Theorem remove_connected_ws_never_raises (name : string) (ws : conn) (g : globals) :
  remove_connected_ws name ws g =
    ({| connected :=
          match connected g !! name with
          | Some s => <[name := s ∖ {[ws]}]> (connected g)
          | None => connected g
          end;
        connected_message := delete ws (connected_message g);
        config_store_state := config_store_state g |}, inr tt)
  /\ (ws ∉ subscribers (fst (remove_connected_ws name ws g)) name)
  /\ connected_message (fst (remove_connected_ws name ws g)) !! ws = None
  /\ (ws ∉ subscribers g name ->
      connected (fst (remove_connected_ws name ws g)) = connected g)
  /\ (connected_message g !! ws = None ->
      connected_message (fst (remove_connected_ws name ws g)) = connected_message g)
  /\ remove_connected_ws name ws (fst (remove_connected_ws name ws g)) =
       (fst (remove_connected_ws name ws g), inr tt).
Proof.
  split; [apply remove_connected_ws_eq|].
  rewrite !remove_connected_ws_eq. simpl. unfold subscribers. simpl.
  destruct (connected g !! name) as [s|] eqn:Hs; simpl.
  - rewrite !lookup_insert_eq. simpl. repeat split.
    + set_solver.
    + apply lookup_delete_eq.
    + intros Hnot. rewrite (difference_singleton_id _ _ Hnot). by apply insert_id.
    + apply delete_id.
    + rewrite insert_insert_eq, delete_delete_eq.
      by replace (s ∖ {[ws]} ∖ {[ws]}) with (s ∖ {[ws]}) by set_solver.
  - rewrite !Hs. simpl. repeat split.
    + set_solver.
    + apply lookup_delete_eq.
    + apply delete_id.
    + by rewrite delete_delete_eq.
Qed.

(** C7: a state in which every connection with a stored message is in
    the subscriber set of the config that message names stays so after
    any finite sequence of register and remove calls. *)
Theorem registry_consistent_after_calls (cs : list call) (g : globals) :
  consistent g -> consistent (run_calls cs g).
Proof.
  revert g. induction cs as [|c cs IH]; intros g Hg; [done|].
  simpl. apply IH. destruct c; simpl.
  - by apply register_connected_ws_consistent.
  - by apply remove_connected_ws_consistent.
Qed.

(** C8: registering a connection under a known config name and removing
    it at once leaves it in neither the subscriber set nor the
    last-message map. *)
Theorem register_then_remove (message : Message.t) (ws : conn) (g : globals) :
  is_Some (connected g !! Message.config_name message) ->
  snd ((register_connected_ws message ws ;;;
        remove_connected_ws (Message.config_name message) ws)%py g) = inr tt
  /\ (ws ∉ subscribers
             (fst ((register_connected_ws message ws ;;;
                    remove_connected_ws (Message.config_name message) ws)%py g))
             (Message.config_name message))
  /\ connected_message
       (fst ((register_connected_ws message ws ;;;
              remove_connected_ws (Message.config_name message) ws)%py g)) !! ws = None.
Proof.
  intros [s Hs]. unfold bind at 1 2 3.
  rewrite register_connected_ws_eq, Hs, remove_connected_ws_eq.
  unfold subscribers. simpl. rewrite !lookup_insert_eq. simpl.
  repeat split; [set_solver|apply lookup_delete_eq].
Qed.

(** C10: a registration that fails with "config not found" leaves the
    module state exactly as it was. *)
Theorem register_connected_ws_failure_atomic (message : Message.t) (ws : conn) (g : globals) :
  connected g !! Message.config_name message = None ->
  register_connected_ws message ws g =
    (g, inl (ProjectNoFoundException (Message.config_name message))).
Proof. intros Hs. by rewrite register_connected_ws_eq, Hs. Qed.

Lemma registry_consistent_after_calls_witness :
  consistent g_app
  /\ consistent
       (run_calls [Register (msg_app "h1") 7; Remove "other" 7;
                   Register (msg_app "h2") 8; Remove "app" 8] g_app).
Proof.
  assert (consistent g_app) as Hg.
  { intros ws m Hm. simpl in Hm. rewrite lookup_empty in Hm. discriminate Hm. }
  split; [exact Hg|].
  exact (registry_consistent_after_calls
           [Register (msg_app "h1") 7; Remove "other" 7;
            Register (msg_app "h2") 8; Remove "app" 8] g_app Hg).
Defined.

Lemma register_then_remove_witness :
  is_Some (connected g_app !! "app")
  /\ snd ((register_connected_ws (msg_app "h1") 7 ;;;
           remove_connected_ws "app" 7)%py g_app) = inr tt
  /\ (7 ∉ subscribers
            (fst ((register_connected_ws (msg_app "h1") 7 ;;;
                   remove_connected_ws "app" 7)%py g_app)) "app")
  /\ connected_message
       (fst ((register_connected_ws (msg_app "h1") 7 ;;;
              remove_connected_ws "app" 7)%py g_app)) !! 7 = None.
Proof.
  assert (is_Some (connected g_app !! "app")) as Hs.
  { exists ∅. vm_compute. reflexivity. }
  split; [exact Hs|].
  exact (register_then_remove (msg_app "h1") 7 g_app Hs).
Defined.

Lemma register_connected_ws_failure_atomic_witness :
  connected g_none !! "app" = None
  /\ register_connected_ws (msg_app "h1") 7 g_none =
       (g_none, inl (ProjectNoFoundException "app")).
Proof.
  assert (connected g_none !! "app" = None) as Hs by (vm_compute; reflexivity).
  split; [exact Hs|].
  exact (register_connected_ws_failure_atomic (msg_app "h1") 7 g_none Hs).
Defined.

(** ** Message *)


Lemma dict_get_setitem_eq (k : string) (v : json) (d : pydict) :
  dict_get k (dict_setitem k v d) = Some v.
Proof.
  induction d as [|[k0 v0] d IH]; simpl.
  - by rewrite String.eqb_refl.
  - destruct (String.eqb_spec k k0) as [->|Hk0]; simpl.
    + by rewrite String.eqb_refl.
    + destruct (String.eqb_spec k k0); [contradiction|exact IH].
Qed.


Lemma deref_insert_eq (h : heap) (l : loc) (d : pydict) : deref (<[l := d]> h) l = d.
Proof. unfold deref. by rewrite lookup_insert_eq. Qed.


(** The heap [to_dict] leaves behind. *)
Lemma to_dict_heap json_dumps strftime (m : Message.t) (indent : nat) (h : heap) :
  fst (Message.to_dict json_dumps strftime m indent h) =
  <[Message.context m :=
      dict_setitem "headers" (JObj (dict_of_items (headers (Message.request m))))
                   (deref h (Message.context m))]> h.
Proof. reflexivity. Qed.

(** A message whose [data] is a dict held outside the heap serializes
    to the same text in every heap; [config_message] builds such a
    message. *)
Lemma to_string_own_data json_dumps (m : Message.t) (d : pydict) (h h' : heap) :
  Message.data m = DictOf d ->
  snd (Message.to_string json_dumps m h) = snd (Message.to_string json_dumps m h').
Proof.
  intros Hd. unfold Message.to_string, Message.compact_form, bind, get_state, ret.
  simpl. by rewrite Hd.
Qed.

(** A message built with one dict for [data] and [context]: [to_dict]
    writes the request headers into what [data] reads. *)
Lemma to_dict_one_dict :
  Message.v_data (Message.view ∅ msg_one_dict) = []
  /\ Message.v_data
       (Message.view
          (fst (Message.to_dict (fun _ => render) (fun _ => "now") msg_one_dict 0 ∅))
          msg_one_dict)
     = [("headers", JObj [("Host", JStr "example.org")])].
Proof.
  rewrite to_dict_heap. unfold Message.view, msg_one_dict. simpl.
  rewrite deref_insert_eq. split; reflexivity.
Qed.



(** ** ConfigManager *)

Section ManagerFacts.

Context {B H : Type} `{BaseBackend B}.

Implicit Types (w : ConfigManager.world B H) (d : document).

Ltac cm_unfold :=
  cbv beta iota zeta delta
    [bind ret raise modify pass get_state
     ConfigManager.update_config ConfigManager.refresh ConfigManager.source_data
     ConfigManager.set_source_data ConfigManager.store_backend_read
     ConfigManager.store_backend_write ConfigManager.log].

Lemma call_handler_eq (i : nat) (handler : ConfigManager.t -> Py H unit) w :
  ConfigManager.call_handler i handler w =
  ({| ConfigManager.self := ConfigManager.self w;
      ConfigManager.store_backend := ConfigManager.store_backend w;
      ConfigManager.env := fst (handler (ConfigManager.self w) (ConfigManager.env w));
      ConfigManager.trace :=
        ConfigManager.trace w ++ [ConfigManager.ENotify i (ConfigManager.self w)] |},
   snd (handler (ConfigManager.self w) (ConfigManager.env w))).
Proof.
  unfold ConfigManager.call_handler. cm_unfold. simpl.
  by destruct (handler (ConfigManager.self w) (ConfigManager.env w)).
Qed.

(** The handler loop: handlers are called in order, each with the
    manager as it stands, until one raises. *)
Lemma for_each_handlers (hs : list (ConfigManager.t -> Py H unit)) :
  forall (i : nat) w,
    ConfigManager.self
      (fst (for_each (combine (seq i (length hs)) hs)
              (fun ih => ConfigManager.call_handler (fst ih) (snd ih)) w))
    = ConfigManager.self w
    /\ ConfigManager.store_backend
         (fst (for_each (combine (seq i (length hs)) hs)
                 (fun ih => ConfigManager.call_handler (fst ih) (snd ih)) w))
       = ConfigManager.store_backend w
    /\ exists k,
         k <= length hs
         /\ ConfigManager.trace
              (fst (for_each (combine (seq i (length hs)) hs)
                      (fun ih => ConfigManager.call_handler (fst ih) (snd ih)) w))
            = ConfigManager.trace w
              ++ map (fun j => ConfigManager.ENotify j (ConfigManager.self w)) (seq i k)
         /\ (returns (for_each (combine (seq i (length hs)) hs)
                        (fun ih => ConfigManager.call_handler (fst ih) (snd ih)) w)
             -> k = length hs).
Proof.
  induction hs as [|handler hs IH]; intros i w.
  - simpl. repeat split. exists 0. simpl. rewrite app_nil_r. repeat split; lia.
  - simpl. unfold bind at 1 2 3 4. simpl. rewrite call_handler_eq.
    destruct (handler (ConfigManager.self w) (ConfigManager.env w)) as [h [e|[]]] eqn:Hh; simpl.
    + repeat split. exists 1. simpl. repeat split; [lia|].
      intros [a Ha]. discriminate Ha.
    + match goal with
      | |- context [for_each _ _ ?w'] => destruct (IH (S i) w') as (Hself & Hstore & k & Hk & Htr & Hret)
      end.
      simpl in *. repeat split; [done|done|].
      exists (S k). repeat split; [lia| |].
      * rewrite Htr. simpl. by rewrite <- app_assoc.
      * intros Hr. f_equal. by apply Hret.
Qed.

(** The handler loop, exactly: the handlers are called until one
    raises. *)
Lemma for_each_handlers_exact (hs : list (ConfigManager.t -> Py H unit)) :
  forall (i : nat) w,
    for_each (combine (seq i (length hs)) hs)
      (fun ih => ConfigManager.call_handler (fst ih) (snd ih)) w =
    ({| ConfigManager.self := ConfigManager.self w;
        ConfigManager.store_backend := ConfigManager.store_backend w;
        ConfigManager.env :=
          fst (fst (call_until_raise hs (ConfigManager.self w) (ConfigManager.env w)));
        ConfigManager.trace :=
          ConfigManager.trace w
          ++ map (fun j => ConfigManager.ENotify j (ConfigManager.self w))
               (seq i (snd (call_until_raise hs (ConfigManager.self w)
                              (ConfigManager.env w)))) |},
     snd (fst (call_until_raise hs (ConfigManager.self w) (ConfigManager.env w)))).
Proof.
  induction hs as [|handler hs IH]; intros i w.
  - simpl. rewrite app_nil_r. by destruct w.
  - simpl. unfold bind at 1. rewrite call_handler_eq.
    destruct (handler (ConfigManager.self w) (ConfigManager.env w)) as [h [e|[]]] eqn:Hh;
      simpl; [done|].
    rewrite IH. simpl.
    destruct (call_until_raise hs (ConfigManager.self w) h) as [[h' r] k]. simpl.
    by rewrite <- app_assoc.
Qed.

Lemma call_until_raise_app (pre rest : list (ConfigManager.t -> Py H unit))
    (m : ConfigManager.t) :
  forall (h h1 : H),
    call_until_raise pre m h = (h1, inr tt, length pre) ->
    call_until_raise (pre ++ rest) m h =
    (fst (fst (call_until_raise rest m h1)),
     snd (fst (call_until_raise rest m h1)),
     length pre + snd (call_until_raise rest m h1)).
Proof.
  induction pre as [|handler pre IH]; intros h h1 Hpre; simpl in *.
  - injection Hpre as ->. by destruct (call_until_raise rest m h1) as [[? ?] ?].
  - destruct (handler m h) as [h' [e|[]]]; [discriminate Hpre|].
    destruct (call_until_raise pre m h') as [[h'' r] k] eqn:Hrec.
    injection Hpre as -> -> ->.
    rewrite (IH _ _ Hrec). done.
Qed.

(** When the backend write raises, [update_config] stops there. *)
Lemma update_config_write_raises (handlers : list (ConfigManager.t -> Py H unit))
    w (b' : B) (e : exn) :
  write (ConfigManager._source_data (ConfigManager.self w)) (ConfigManager.store_backend w)
    = (b', inl e) ->
  ConfigManager.update_config handlers w =
    ({| ConfigManager.self := ConfigManager.self w;
        ConfigManager.store_backend := b';
        ConfigManager.env := ConfigManager.env w;
        ConfigManager.trace :=
          ConfigManager.trace w
          ++ [ConfigManager.EWrite (ConfigManager._source_data (ConfigManager.self w))] |},
     inl e).
Proof. intros Hw. cm_unfold. simpl. by rewrite Hw. Qed.

(** When write and read both return, the handlers run on the manager
    holding the document that was read. *)
Lemma update_config_write_read (handlers : list (ConfigManager.t -> Py H unit))
    w (b' b'' : B) (d' : document) :
  write (ConfigManager._source_data (ConfigManager.self w)) (ConfigManager.store_backend w)
    = (b', inr tt) ->
  read b' = (b'', inr d') ->
  ConfigManager.update_config handlers w =
    for_each (combine (seq 0 (length handlers)) handlers)
      (fun ih => ConfigManager.call_handler (fst ih) (snd ih))
      {| ConfigManager.self := ConfigManager.with_source_data d' (ConfigManager.self w);
         ConfigManager.store_backend := b'';
         ConfigManager.env := ConfigManager.env w;
         ConfigManager.trace :=
           ConfigManager.trace w
           ++ [ConfigManager.EWrite (ConfigManager._source_data (ConfigManager.self w));
               ConfigManager.ERead] |}.
Proof.
  intros Hw Hr. cm_unfold. simpl. rewrite Hw. simpl. rewrite Hr. simpl.
  by rewrite <- app_assoc.
Qed.

(** When write and read both return, exactly. *)
Lemma update_config_exact (handlers : list (ConfigManager.t -> Py H unit))
    w (b' b'' : B) (d' : document) :
  write (ConfigManager._source_data (ConfigManager.self w)) (ConfigManager.store_backend w)
    = (b', inr tt) ->
  read b' = (b'', inr d') ->
  ConfigManager.update_config handlers w =
    ({| ConfigManager.self := ConfigManager.with_source_data d' (ConfigManager.self w);
        ConfigManager.store_backend := b'';
        ConfigManager.env :=
          fst (fst (call_until_raise handlers
                      (ConfigManager.with_source_data d' (ConfigManager.self w))
                      (ConfigManager.env w)));
        ConfigManager.trace :=
          ConfigManager.trace w
          ++ [ConfigManager.EWrite (ConfigManager._source_data (ConfigManager.self w));
              ConfigManager.ERead]
          ++ map (fun i => ConfigManager.ENotify i
                             (ConfigManager.with_source_data d' (ConfigManager.self w)))
               (seq 0 (snd (call_until_raise handlers
                              (ConfigManager.with_source_data d' (ConfigManager.self w))
                              (ConfigManager.env w)))) |},
     snd (fst (call_until_raise handlers
                 (ConfigManager.with_source_data d' (ConfigManager.self w))
                 (ConfigManager.env w)))).
Proof.
  intros Hw Hr. rewrite (update_config_write_read handlers w b' b'' d' Hw Hr).
  rewrite for_each_handlers_exact. simpl. by rewrite <- app_assoc.
Qed.

(** When the write returns and the read raises, exactly. *)
Lemma update_config_read_raises (handlers : list (ConfigManager.t -> Py H unit))
    w (b' b'' : B) (e : exn) :
  write (ConfigManager._source_data (ConfigManager.self w)) (ConfigManager.store_backend w)
    = (b', inr tt) ->
  read b' = (b'', inl e) ->
  ConfigManager.update_config handlers w =
    ({| ConfigManager.self := ConfigManager.self w;
        ConfigManager.store_backend := b'';
        ConfigManager.env := ConfigManager.env w;
        ConfigManager.trace :=
          ConfigManager.trace w
          ++ [ConfigManager.EWrite (ConfigManager._source_data (ConfigManager.self w));
              ConfigManager.ERead] |},
     inl e).
Proof.
  intros Hw Hr. cm_unfold. simpl. rewrite Hw. simpl. rewrite Hr. simpl.
  by rewrite <- app_assoc.
Qed.

End ManagerFacts.

Lemma notified_notifications (m : ConfigManager.t) (l : list nat) :
  notified (map (fun i => ConfigManager.ENotify i m) l) = map (fun i => (i, m)) l.
Proof. induction l as [|i l IH]; [done|]. simpl. by rewrite <- IH. Qed.

(** C3: when the backend write raises during [update_config], that
    exception reaches the caller and the manager's document and
    fingerprint are what they were before the call. *)
Theorem update_config_write_failure {B H : Type} `{BaseBackend B}
    (to_hash : document -> string)
    (handlers : list (ConfigManager.t -> Py H unit))
    (w : ConfigManager.world B H) (b' : B) (e : exn) :
  write (ConfigManager._source_data (ConfigManager.self w)) (ConfigManager.store_backend w)
    = (b', inl e) ->
  raises (ConfigManager.update_config handlers w) e
  /\ ConfigManager._source_data
       (ConfigManager.self (fst (ConfigManager.update_config handlers w)))
     = ConfigManager._source_data (ConfigManager.self w)
  /\ ConfigManager.hash_code to_hash
       (ConfigManager.self (fst (ConfigManager.update_config handlers w)))
     = ConfigManager.hash_code to_hash (ConfigManager.self w).
Proof.
  intros Hw. rewrite (update_config_write_raises handlers w b' e Hw).
  unfold raises. simpl. done.
Qed.

Lemma update_config_write_failure_witness :
  @write document readonly_backend
     (ConfigManager._source_data (ConfigManager.self (world0 doc_a1 tt)))
     (ConfigManager.store_backend (world0 doc_a1 tt))
  = ([], inl (ExternalError "read-only file system"))
  /\ raises (@ConfigManager.update_config document unit readonly_backend
               [handler_returns] (world0 doc_a1 tt))
            (ExternalError "read-only file system")
  /\ ConfigManager._source_data
       (ConfigManager.self
          (fst (@ConfigManager.update_config document unit readonly_backend
                  [handler_returns] (world0 doc_a1 tt))))
     = ConfigManager._source_data (ConfigManager.self (world0 doc_a1 tt))
  /\ ConfigManager.hash_code (fun _ => "")
       (ConfigManager.self
          (fst (@ConfigManager.update_config document unit readonly_backend
                  [handler_returns] (world0 doc_a1 tt))))
     = ConfigManager.hash_code (fun _ => "") (ConfigManager.self (world0 doc_a1 tt)).
Proof.
  split; [reflexivity|].
  exact (@update_config_write_failure document unit readonly_backend (fun _ => "")
           [handler_returns] (world0 doc_a1 tt) []
           (ExternalError "read-only file system") eq_refl).
Defined.

(** C4, as the code has it: over a faithful backend, setting the
    document to [D] and calling [update_config] leaves the manager's
    document equal to [D].  The calls made are, in this order, the write
    of [D], the read of the refresh, and the registered callbacks in
    iteration order, each at most once and with the manager itself,
    holding the document that was read back.  A call that raises ends
    the update: a raising write or read ends it before any callback, and
    when the callbacks before one return and that one raises, the update
    raises the same exception with no later callback invoked.  Every
    callback is invoked exactly once when the update returns. *)
Theorem update_config_roundtrip {B H : Type} `{BaseBackend B}
    (handlers : list (ConfigManager.t -> Py H unit))
    (D : document) (w : ConfigManager.world B H) :
  (faithful B ->
   ConfigManager._source_data (ConfigManager.self (fst (update_with handlers D w))) = D
   /\ (exists rest,
         [ConfigManager.EWrite D; ConfigManager.ERead]
         ++ map (fun i => ConfigManager.ENotify i
                            (ConfigManager.with_source_data D (ConfigManager.self w)))
                (seq 0 (length handlers))
         = drop (length (ConfigManager.trace w))
                (ConfigManager.trace (fst (update_with handlers D w)))
           ++ rest)
   /\ (returns (update_with handlers D w) ->
       ConfigManager.trace (fst (update_with handlers D w))
       = ConfigManager.trace w
         ++ [ConfigManager.EWrite D; ConfigManager.ERead]
         ++ map (fun i => ConfigManager.ENotify i
                            (ConfigManager.with_source_data D (ConfigManager.self w)))
                (seq 0 (length handlers))))
  /\ (forall b1 e,
        write D (ConfigManager.store_backend w) = (b1, inl e) ->
        update_with handlers D w =
          ({| ConfigManager.self := ConfigManager.with_source_data D (ConfigManager.self w);
              ConfigManager.store_backend := b1;
              ConfigManager.env := ConfigManager.env w;
              ConfigManager.trace := ConfigManager.trace w ++ [ConfigManager.EWrite D] |},
           inl e))
  /\ (forall b1 b2 e,
        write D (ConfigManager.store_backend w) = (b1, inr tt) ->
        read b1 = (b2, inl e) ->
        update_with handlers D w =
          ({| ConfigManager.self := ConfigManager.with_source_data D (ConfigManager.self w);
              ConfigManager.store_backend := b2;
              ConfigManager.env := ConfigManager.env w;
              ConfigManager.trace :=
                ConfigManager.trace w ++ [ConfigManager.EWrite D; ConfigManager.ERead] |},
           inl e))
  /\ (forall b1 b2 d',
        write D (ConfigManager.store_backend w) = (b1, inr tt) ->
        read b1 = (b2, inr d') ->
        update_with handlers D w =
          ({| ConfigManager.self := ConfigManager.with_source_data d' (ConfigManager.self w);
              ConfigManager.store_backend := b2;
              ConfigManager.env :=
                fst (fst (call_until_raise handlers
                            (ConfigManager.with_source_data d' (ConfigManager.self w))
                            (ConfigManager.env w)));
              ConfigManager.trace :=
                ConfigManager.trace w
                ++ [ConfigManager.EWrite D; ConfigManager.ERead]
                ++ map (fun i => ConfigManager.ENotify i
                                   (ConfigManager.with_source_data d' (ConfigManager.self w)))
                     (seq 0 (snd (call_until_raise handlers
                                    (ConfigManager.with_source_data d'
                                       (ConfigManager.self w))
                                    (ConfigManager.env w)))) |},
           snd (fst (call_until_raise handlers
                       (ConfigManager.with_source_data d' (ConfigManager.self w))
                       (ConfigManager.env w)))))
  /\ (forall b1 b2 d' pre handler post h e,
        write D (ConfigManager.store_backend w) = (b1, inr tt) ->
        read b1 = (b2, inr d') ->
        handlers = pre ++ handler :: post ->
        call_until_raise pre (ConfigManager.with_source_data d' (ConfigManager.self w))
          (ConfigManager.env w) = (h, inr tt, length pre) ->
        snd (handler (ConfigManager.with_source_data d' (ConfigManager.self w)) h) = inl e ->
        raises (update_with handlers D w) e
        /\ notified (drop (length (ConfigManager.trace w))
                       (ConfigManager.trace (fst (update_with handlers D w))))
           = map (fun i => (i, ConfigManager.with_source_data d' (ConfigManager.self w)))
                 (seq 0 (S (length pre)))).
Proof.
  assert (forall b1 b2 d',
        write D (ConfigManager.store_backend w) = (b1, inr tt) ->
        read b1 = (b2, inr d') ->
        update_with handlers D w =
          ({| ConfigManager.self := ConfigManager.with_source_data d' (ConfigManager.self w);
              ConfigManager.store_backend := b2;
              ConfigManager.env :=
                fst (fst (call_until_raise handlers
                            (ConfigManager.with_source_data d' (ConfigManager.self w))
                            (ConfigManager.env w)));
              ConfigManager.trace :=
                ConfigManager.trace w
                ++ [ConfigManager.EWrite D; ConfigManager.ERead]
                ++ map (fun i => ConfigManager.ENotify i
                                   (ConfigManager.with_source_data d' (ConfigManager.self w)))
                     (seq 0 (snd (call_until_raise handlers
                                    (ConfigManager.with_source_data d'
                                       (ConfigManager.self w))
                                    (ConfigManager.env w)))) |},
           snd (fst (call_until_raise handlers
                       (ConfigManager.with_source_data d' (ConfigManager.self w))
                       (ConfigManager.env w))))) as Hexact.
  { intros b1 b2 d' Hw Hr.
    unfold update_with, bind, ConfigManager.set_source_data, modify. cbv beta iota.
    match goal with
    | |- context [ConfigManager.update_config handlers ?w1] =>
        rewrite (update_config_exact handlers w1 b1 b2 d' Hw Hr)
    end.
    reflexivity. }
  split; [|split; [|split; [|split; [exact Hexact|]]]].
  - intros Hfaithful.
    unfold update_with, bind. unfold ConfigManager.set_source_data, modify.
    cbv beta iota.
    set (w1 := {| ConfigManager.self :=
                    ConfigManager.with_source_data D (ConfigManager.self w);
                  ConfigManager.store_backend := ConfigManager.store_backend w;
                  ConfigManager.env := ConfigManager.env w;
                  ConfigManager.trace := ConfigManager.trace w |}).
    destruct (write (ConfigManager._source_data (ConfigManager.self w1))
                    (ConfigManager.store_backend w1)) as [b' [e|[]]] eqn:Hw.
    + rewrite (update_config_write_raises handlers w1 b' e Hw). simpl.
      split; [done|]. split.
      * rewrite drop_app_length. eexists. reflexivity.
      * intros [a Ha]. discriminate Ha.
    + destruct (Hfaithful _ _ _ Hw) as [b'' Hr].
      rewrite (update_config_write_read handlers w1 b' b'' _ Hw Hr).
      match goal with
      | |- context [for_each _ _ ?w2] =>
          destruct (for_each_handlers handlers 0 w2) as (Hself & _ & k & Hk & Htr & Hret)
      end.
      rewrite Hself, Htr. simpl.
      split; [done|]. split.
      * rewrite <- app_assoc, drop_app_length. simpl.
        exists (map (fun i => ConfigManager.ENotify i
                                (ConfigManager.with_source_data D (ConfigManager.self w)))
                    (seq k (length handlers - k))).
        do 2 f_equal. rewrite <- map_app. f_equal.
        replace (length handlers) with (k + (length handlers - k)) at 1 by lia.
        by rewrite seq_app.
      * intros Hr'. rewrite (Hret Hr'). by rewrite <- app_assoc.
  - intros b1 e Hw.
    unfold update_with, bind, ConfigManager.set_source_data, modify. cbv beta iota.
    match goal with
    | |- context [ConfigManager.update_config handlers ?w1] =>
        rewrite (update_config_write_raises handlers w1 b1 e Hw)
    end.
    reflexivity.
  - intros b1 b2 e Hw Hr.
    unfold update_with, bind, ConfigManager.set_source_data, modify. cbv beta iota.
    match goal with
    | |- context [ConfigManager.update_config handlers ?w1] =>
        rewrite (update_config_read_raises handlers w1 b1 b2 e Hw Hr)
    end.
    reflexivity.
  - intros b1 b2 d' pre handler post h e Hw Hr -> Hpre Hraise.
    rewrite (Hexact b1 b2 d' Hw Hr).
    rewrite (call_until_raise_app pre (handler :: post) _ _ _ Hpre).
    unfold raises. simpl.
    destruct (handler (ConfigManager.with_source_data d' (ConfigManager.self w)) h)
      as [h' [e'|[]]]; simpl in *; [|discriminate Hraise].
    injection Hraise as ->. split; [done|].
    rewrite drop_app_length. unfold notified at 1. simpl.
    rewrite Nat.add_1_r.
    apply (notified_notifications
             (ConfigManager.with_source_data d' (ConfigManager.self w))
             (seq 0 (S (length pre)))).
Qed.

Lemma file_backend_faithful : @faithful document file_backend.
Proof. intros d b b' Hw. simpl in Hw. exists b'. simpl. congruence. Qed.

Lemma update_config_roundtrip_witness :
  @faithful document file_backend
  /\ ConfigManager._source_data
       (ConfigManager.self
          (fst (@update_with document _ file_backend
                  [notify_changed_ok; handler_returns] doc_a1
                  (world0 [] (process0 (g_two "h1" "h0") [])))))
     = doc_a1
  /\ ConfigManager.trace
       (fst (@update_with document _ file_backend
               [notify_changed_ok; handler_returns] doc_a1
               (world0 [] (process0 (g_two "h1" "h0") []))))
     = [ConfigManager.EWrite doc_a1; ConfigManager.ERead;
        ConfigManager.ENotify 0 (mgr_app doc_a1);
        ConfigManager.ENotify 1 (mgr_app doc_a1)].
Proof.
  split; [exact file_backend_faithful|].
  destruct (proj1 (@update_config_roundtrip document _ file_backend
                     [notify_changed_ok; handler_returns] doc_a1
                     (world0 [] (process0 (g_two "h1" "h0") [])))
              file_backend_faithful) as (Hdoc & _ & Htrace).
  split; [exact Hdoc|].
  apply Htrace. exists tt. vm_compute. reflexivity.
Defined.

(** C4 as stated fails: the backend is faithful and two callbacks are
    registered, [notify_changed] and one more.  Both subscribers of
    ["app"] are up to date and their connections are closed, so
    [notify_changed] raises out of its first [send]; the other callback
    raises too.  Whichever of the two the loop reaches first ends the
    update, and the other one is never invoked. *)
Lemma update_config_handler_raises :
  @faithful document file_backend
  /\ snd (@update_with document _ file_backend
            [notify_changed_closed; handler_raises "audit log unavailable"] doc_a1
            (world0 [] (process0 (g_two "h1" "h1") tt)))
     = inl (ExternalError "connection closed")
  /\ notified
       (ConfigManager.trace
          (fst (@update_with document _ file_backend
                  [notify_changed_closed; handler_raises "audit log unavailable"] doc_a1
                  (world0 [] (process0 (g_two "h1" "h1") tt)))))
     = [(0, mgr_app doc_a1)]
  /\ snd (@update_with document _ file_backend
            [handler_raises "audit log unavailable"; notify_changed_closed] doc_a1
            (world0 [] (process0 (g_two "h1" "h1") tt)))
     = inl (ExternalError "audit log unavailable")
  /\ notified
       (ConfigManager.trace
          (fst (@update_with document _ file_backend
                  [handler_raises "audit log unavailable"; notify_changed_closed] doc_a1
                  (world0 [] (process0 (g_two "h1" "h1") tt)))))
     = [(0, mgr_app doc_a1)].
Proof.
  split; [exact file_backend_faithful|].
  repeat split; vm_compute; reflexivity.
Qed.

(** ** The dispatcher *)

Section DispatcherFacts.

Context {T : Type}.
Variable send : conn -> string -> Py T unit.
Variable to_hash : document -> string.
Variable json_dumps : option nat -> json -> string.
Variable convert_dt : option Z -> Z.
Variable M : ConfigManager.t.

Implicit Types (p : process T) (c : conn) (l : list conn).

(** One iteration of the loop, in closed form. *)
Lemma notify_client_eq c p :
  notify_client send to_hash json_dumps convert_dt M c p =
  match target to_hash json_dumps convert_dt (connected_message (module p)) M c with
  | Some call =>
      ({| module := module p;
          transport := fst (send (fst call) (snd call) (transport p));
          sent := sent p ++ [call] |},
       snd (send (fst call) (snd call) (transport p)))
  | None => (p, inr tt)
  end.
Proof.
  unfold notify_client, target, on_module, client_send,
    ConfigManager.config_message, Message.to_string.
  py_unfold. destruct p as [g t s]. simpl.
  destruct (connected_message g !! c) as [message|]; [|done].
  destruct (String.eqb (Message.config_name message) (ConfigManager.config_name M));
    simpl; [|done].
  destruct (String.eqb (ConfigManager.hash_code to_hash M) (Message.hash_code message));
    simpl; [|done].
  by destruct (send c _ t).
Qed.

(** The loop makes the calls of an initial part of the list, and of the
    whole list when it returns. *)
Lemma for_each_notify l :
  forall p,
  exists l1 l2,
    l = l1 ++ l2
    /\ module (fst (for_each l (notify_client send to_hash json_dumps convert_dt M) p))
       = module p
    /\ sent (fst (for_each l (notify_client send to_hash json_dumps convert_dt M) p))
       = sent p
         ++ omap (target to_hash json_dumps convert_dt (connected_message (module p)) M) l1
    /\ (returns (for_each l (notify_client send to_hash json_dumps convert_dt M) p)
        -> l2 = []).
Proof.
  induction l as [|c l IH]; intros p.
  - exists [], []. simpl. by rewrite app_nil_r.
  - simpl. unfold bind. rewrite notify_client_eq.
    destruct (target to_hash json_dumps convert_dt (connected_message (module p)) M c)
      as [call|] eqn:Hc.
    + destruct (send (fst call) (snd call) (transport p)) as [t' [e|[]]] eqn:Hsend; simpl.
      * exists [c], l. simpl. rewrite Hc. repeat split.
        intros [a Ha]. discriminate Ha.
      * match goal with
        | |- context [for_each l _ ?p'] =>
            destruct (IH p') as (l1 & l2 & -> & Hmod & Hsent & Hret)
        end.
        exists (c :: l1), l2. simpl in *. rewrite Hc.
        repeat split; [done| |done].
        rewrite Hsent. by rewrite <- app_assoc.
    + destruct (IH p) as (l1 & l2 & -> & Hmod & Hsent & Hret).
      exists (c :: l1), l2. simpl. rewrite Hc. done.
Qed.

(** The loop, exactly: the calls due for the list are made until one
    raises. *)
Lemma for_each_notify_exact l :
  forall p,
    for_each l (notify_client send to_hash json_dumps convert_dt M) p =
    ({| module := module p;
        transport :=
          fst (fst (send_until_raise send
                      (omap (target to_hash json_dumps convert_dt
                               (connected_message (module p)) M) l)
                      (transport p)));
        sent :=
          sent p
          ++ snd (send_until_raise send
                    (omap (target to_hash json_dumps convert_dt
                             (connected_message (module p)) M) l)
                    (transport p)) |},
     snd (fst (send_until_raise send
                 (omap (target to_hash json_dumps convert_dt
                          (connected_message (module p)) M) l)
                 (transport p)))).
Proof.
  induction l as [|c l IH]; intros p.
  - simpl. rewrite app_nil_r. by destruct p.
  - simpl. unfold bind. rewrite notify_client_eq.
    destruct (target to_hash json_dumps convert_dt (connected_message (module p)) M c)
      as [call|] eqn:Hc; simpl; [|apply IH].
    destruct (send (fst call) (snd call) (transport p)) as [t' [e|[]]] eqn:Hsend; simpl.
    + done.
    + rewrite IH. simpl.
      change (list_omap conn (conn * string)%type) with (@omap list _ conn (conn * string)%type).
      destruct (send_until_raise send
                  (omap (target to_hash json_dumps convert_dt
                           (connected_message (module p)) M) l) t')
        as [[t'' r] made]. simpl. by rewrite <- app_assoc.
Qed.

Lemma send_until_raise_app (pre rest : list (conn * string)) :
  forall (t t1 : T),
    send_until_raise send pre t = (t1, inr tt, pre) ->
    send_until_raise send (pre ++ rest) t =
    (fst (fst (send_until_raise send rest t1)),
     snd (fst (send_until_raise send rest t1)),
     pre ++ snd (send_until_raise send rest t1)).
Proof.
  induction pre as [|call pre IH]; intros t t1 Hpre; simpl in *.
  - injection Hpre as ->. by destruct (send_until_raise send rest t1) as [[? ?] ?].
  - destruct (send (fst call) (snd call) t) as [t' [e|[]]]; [discriminate Hpre|].
    destruct (send_until_raise send pre t') as [[t'' r] made] eqn:Hrec.
    injection Hpre as -> -> ->.
    rewrite (IH _ _ Hrec). done.
Qed.

Lemma target_Some stored c call :
  target to_hash json_dumps convert_dt stored M c = Some call ->
  fst call = c
  /\ exists message,
       stored !! c = Some message
       /\ Message.config_name message = ConfigManager.config_name M
       /\ Message.hash_code message = ConfigManager.hash_code to_hash M
       /\ snd (ConfigManager.config_message to_hash json_dumps convert_dt M
                 (Message.request message) tt) = inr (snd call).
Proof.
  unfold target. destruct (stored !! c) as [message|]; [|done].
  destruct (String.eqb_spec (Message.config_name message) (ConfigManager.config_name M));
    simpl; [|done].
  destruct (String.eqb_spec (ConfigManager.hash_code to_hash M) (Message.hash_code message));
    simpl; [|done].
  intros [= <-]. simpl. eauto 10.
Qed.

Lemma target_qualifies (g : globals) c :
  qualifies to_hash g M c <->
  is_Some (target to_hash json_dumps convert_dt (connected_message g) M c).
Proof.
  split.
  - intros (message & Hm & Hname & Hhash). unfold target. rewrite Hm, Hname, Hhash.
    rewrite !String.eqb_refl. simpl. eauto.
  - intros [call Hcall]. apply target_Some in Hcall as (_ & message & ? & ? & ? & _).
    by exists message.
Qed.

Lemma target_fst stored l :
  (omap (target to_hash json_dumps convert_dt stored M) l).*1
  = filter (fun c => is_Some (target to_hash json_dumps convert_dt stored M c)) l.
Proof.
  induction l as [|c l IH]; [done|]. simpl.
  destruct (target to_hash json_dumps convert_dt stored M c) as [call|] eqn:Hc; simpl.
  - rewrite filter_cons_True by (rewrite Hc; eauto).
    apply target_Some in Hc as [-> _]. f_equal. exact IH.
  - rewrite filter_cons_False by (rewrite Hc; by intros [? ?]). done.
Qed.

End DispatcherFacts.

(** The list the [for] loop of [notify_changed] walks. *)
Lemma clients_of_elem (g : globals) (name : string) (c : conn) :
  c ∈ (match snd (clients_of name g) with inr l => l | inl _ => [] end)
  <-> c ∈ subscribers g name.
Proof.
  unfold clients_of, subscribers.
  destruct (connected g !! name) as [s|]; simpl; [|set_solver].
  destruct (decide (s = ∅)) as [->|Hne]; [set_solver|].
  apply elem_of_elements.
Qed.

Lemma clients_of_NoDup (g : globals) (name : string) :
  NoDup (match snd (clients_of name g) with inr l => l | inl _ => [] end).
Proof.
  unfold clients_of.
  destruct (connected g !! name) as [s|]; simpl; [|constructor].
  destruct (decide (s = ∅)); [constructor|apply NoDup_elements].
Qed.

Section NotifyChanged.

Context {T : Type}.
Variable send : conn -> string -> Py T unit.
Variable to_hash : document -> string.
Variable json_dumps : option nat -> json -> string.
Variable convert_dt : option Z -> Z.

Lemma notify_changed_eq (M : ConfigManager.t) (p : process T) :
  notify_changed send to_hash json_dumps convert_dt M p =
  for_each (match snd (clients_of (ConfigManager.config_name M) (module p)) with
            | inr l => l
            | inl _ => []
            end)
    (notify_client send to_hash json_dumps convert_dt M)
    {| module := set_config_store_state
                   (fun c => <[ConfigManager.config_name M := M]> c) (module p);
       transport := transport p;
       sent := sent p |}.
Proof.
  unfold notify_changed, on_module, clients_of. py_unfold. simpl.
  by destruct (connected (module p) !! ConfigManager.config_name M).
Qed.

End NotifyChanged.

(** C1, as the code has it: in one pass of [notify_changed] for manager
    [M], every [send] goes to a connection of [M]'s subscriber set whose
    stored message names [M]'s config and carries [M]'s current
    fingerprint, with [config_message] of the stored request as payload,
    and no connection is sent to twice.  A [send] that raises ends the
    pass: the pass makes the calls due, in order, until one raises, and
    when the sends before some call return and that call raises, the
    pass raises the same exception with nothing sent after it.  When the
    pass returns, a connection of the set is sent to if and only if it
    has such a stored message. *)
Theorem notify_changed_sends {T : Type}
    (send : conn -> string -> Py T unit) (to_hash : document -> string)
    (json_dumps : option nat -> json -> string) (convert_dt : option Z -> Z)
    (M : ConfigManager.t) (p : process T) :
  (forall c payload,
      (c, payload) ∈ pass_sends p (fst (notify_changed send to_hash json_dumps convert_dt M p)) ->
      c ∈ subscribers (module p) (ConfigManager.config_name M)
      /\ qualifies to_hash (module p) M c
      /\ exists message,
           connected_message (module p) !! c = Some message
           /\ snd (ConfigManager.config_message to_hash json_dumps convert_dt M
                     (Message.request message) tt) = inr payload)
  /\ NoDup (pass_sends p (fst (notify_changed send to_hash json_dumps convert_dt M p))).*1
  /\ (returns (notify_changed send to_hash json_dumps convert_dt M p) ->
      forall c, c ∈ subscribers (module p) (ConfigManager.config_name M) ->
        (c ∈ (pass_sends p (fst (notify_changed send to_hash json_dumps convert_dt M p))).*1
         <-> qualifies to_hash (module p) M c))
  /\ notify_changed send to_hash json_dumps convert_dt M p =
       ({| module := set_config_store_state
                       (fun c => <[ConfigManager.config_name M := M]> c) (module p);
           transport :=
             fst (fst (send_until_raise send
                         (due to_hash json_dumps convert_dt (module p) M) (transport p)));
           sent :=
             sent p
             ++ snd (send_until_raise send
                       (due to_hash json_dumps convert_dt (module p) M) (transport p)) |},
        snd (fst (send_until_raise send
                    (due to_hash json_dumps convert_dt (module p) M) (transport p))))
  /\ (forall pre call post t e,
        due to_hash json_dumps convert_dt (module p) M = pre ++ call :: post ->
        send_until_raise send pre (transport p) = (t, inr tt, pre) ->
        snd (send (fst call) (snd call) t) = inl e ->
        raises (notify_changed send to_hash json_dumps convert_dt M p) e
        /\ pass_sends p (fst (notify_changed send to_hash json_dumps convert_dt M p))
           = pre ++ [call]).
Proof.
  assert (notify_changed send to_hash json_dumps convert_dt M p =
       ({| module := set_config_store_state
                       (fun c => <[ConfigManager.config_name M := M]> c) (module p);
           transport :=
             fst (fst (send_until_raise send
                         (due to_hash json_dumps convert_dt (module p) M) (transport p)));
           sent :=
             sent p
             ++ snd (send_until_raise send
                       (due to_hash json_dumps convert_dt (module p) M) (transport p)) |},
        snd (fst (send_until_raise send
                    (due to_hash json_dumps convert_dt (module p) M) (transport p)))))
    as Hexact.
  { rewrite notify_changed_eq, for_each_notify_exact. reflexivity. }
  assert (forall pre call post t e,
        due to_hash json_dumps convert_dt (module p) M = pre ++ call :: post ->
        send_until_raise send pre (transport p) = (t, inr tt, pre) ->
        snd (send (fst call) (snd call) t) = inl e ->
        raises (notify_changed send to_hash json_dumps convert_dt M p) e
        /\ pass_sends p (fst (notify_changed send to_hash json_dumps convert_dt M p))
           = pre ++ [call]) as Hraise.
  { intros pre call post t e Hdue Hpre Hsend. rewrite Hexact, Hdue.
    rewrite (send_until_raise_app send pre (call :: post) _ _ Hpre).
    unfold raises, pass_sends. simpl.
    destruct (send (fst call) (snd call) t) as [t' [e'|[]]]; simpl in *;
      [|discriminate Hsend].
    injection Hsend as ->. by rewrite drop_app_length. }
  split; [|split; [|split; [|split; [exact Hexact|exact Hraise]]]];
    clear Hexact Hraise;
    rewrite notify_changed_eq;
    pose proof (clients_of_NoDup (module p) (ConfigManager.config_name M)) as Hnodup;
    pose proof (clients_of_elem (module p) (ConfigManager.config_name M)) as Helem;
    match goal with
    | |- context [for_each ?l0 _ ?p1] =>
        destruct (for_each_notify send to_hash json_dumps convert_dt M l0 p1)
          as (l1 & l2 & Hl & _ & Hsent & Hret)
    end;
    unfold pass_sends; rewrite Hsent; simpl; rewrite drop_app_length;
    rewrite Hl in Hnodup; apply NoDup_app in Hnodup as (Hnodup1 & _ & _).
  - intros c payload Hin.
    apply list_elem_of_omap in Hin as (c' & Hc' & Htarget).
    pose proof Htarget as Hq.
    apply target_Some in Htarget as (Hfst & message & Hm & Hname & Hhash & Hpayload).
    simpl in Hfst, Hpayload. subst c'.
    split; [apply Helem; rewrite Hl; set_solver|].
    split; [by exists message|by exists message].
  - rewrite target_fst. by apply NoDup_filter.
  - intros Hr c Hc. rewrite (Hret Hr), app_nil_r in Hl.
    rewrite target_fst, list_elem_of_filter.
    rewrite (target_qualifies to_hash json_dumps convert_dt M (module p) c).
    apply Helem in Hc. rewrite Hl in Hc. tauto.
Qed.

Lemma g_two_subscribers (h7 h8 : string) : subscribers (g_two h7 h8) "app" = {[7; 8]}.
Proof. unfold subscribers, g_two. simpl. by rewrite lookup_singleton_eq. Qed.

Lemma g_two_qualifies_7 (h hc : string) (d : document) :
  qualifies (fun _ => hc) (g_two hc h) (mgr_app d) 7.
Proof.
  exists (msg_app hc). split; [|done].
  unfold g_two. simpl. apply lookup_insert_eq.
Qed.

Lemma g_two_qualifies_8 (h hc : string) (d : document) :
  qualifies (fun _ => hc) (g_two h hc) (mgr_app d) 8.
Proof.
  exists (msg_app hc). split; [|done].
  unfold g_two. simpl. rewrite lookup_insert_ne by done. apply lookup_singleton_eq.
Qed.

(** The scenario of two subscribers of ["app"], one holding the
    manager's fingerprint and one holding another, on a transport that
    delivers: only the first is sent to. *)
Lemma notify_changed_sends_witness :
  returns (notify_changed send_ok (fun _ => "h1") (fun _ _ => "payload") (fun _ => 0%Z)
             (mgr_app doc_a1) (process0 (g_two "h1" "h0") []))
  /\ pass_sends (process0 (g_two "h1" "h0") [])
       (fst (notify_changed send_ok (fun _ => "h1") (fun _ _ => "payload") (fun _ => 0%Z)
               (mgr_app doc_a1) (process0 (g_two "h1" "h0") [])))
     = [(7, "payload")]
  /\ (7 ∈ (pass_sends (process0 (g_two "h1" "h0") [])
             (fst (notify_changed send_ok (fun _ => "h1") (fun _ _ => "payload")
                     (fun _ => 0%Z) (mgr_app doc_a1) (process0 (g_two "h1" "h0") [])))).*1
      <-> qualifies (fun _ => "h1") (g_two "h1" "h0") (mgr_app doc_a1) 7)
  /\ (8 ∈ (pass_sends (process0 (g_two "h1" "h0") [])
             (fst (notify_changed send_ok (fun _ => "h1") (fun _ _ => "payload")
                     (fun _ => 0%Z) (mgr_app doc_a1) (process0 (g_two "h1" "h0") [])))).*1
      <-> qualifies (fun _ => "h1") (g_two "h1" "h0") (mgr_app doc_a1) 8).
Proof.
  assert (returns (notify_changed send_ok (fun _ => "h1") (fun _ _ => "payload")
                     (fun _ => 0%Z) (mgr_app doc_a1) (process0 (g_two "h1" "h0") [])))
    as Hret by (exists tt; vm_compute; reflexivity).
  split; [exact Hret|]. split; [vm_compute; reflexivity|].
  split.
  - apply (proj1 (proj2 (proj2 (notify_changed_sends send_ok (fun _ => "h1")
             (fun _ _ => "payload") (fun _ => 0%Z) (mgr_app doc_a1)
             (process0 (g_two "h1" "h0") [])))) Hret 7).
    simpl. rewrite g_two_subscribers. set_solver.
  - apply (proj1 (proj2 (proj2 (notify_changed_sends send_ok (fun _ => "h1")
             (fun _ _ => "payload") (fun _ => 0%Z) (mgr_app doc_a1)
             (process0 (g_two "h1" "h0") [])))) Hret 8).
    simpl. rewrite g_two_subscribers. set_solver.
Defined.

(** C1 as stated fails: two subscribers of ["app"] both hold the
    manager's fingerprint, every [send] raises, and the pass makes one
    [send] call only, so one of the two receives nothing. *)
Lemma notify_changed_send_raises :
  7 ∈ subscribers (g_two "h1" "h1") "app"
  /\ 8 ∈ subscribers (g_two "h1" "h1") "app"
  /\ qualifies (fun _ => "h1") (g_two "h1" "h1") (mgr_app doc_a1) 7
  /\ qualifies (fun _ => "h1") (g_two "h1" "h1") (mgr_app doc_a1) 8
  /\ raises (notify_changed send_closed (fun _ => "h1") (fun _ _ => "payload")
               (fun _ => 0%Z) (mgr_app doc_a1) (process0 (g_two "h1" "h1") tt))
            (ExternalError "connection closed")
  /\ length (pass_sends (process0 (g_two "h1" "h1") tt)
               (fst (notify_changed send_closed (fun _ => "h1") (fun _ _ => "payload")
                       (fun _ => 0%Z) (mgr_app doc_a1) (process0 (g_two "h1" "h1") tt))))
     = 1
  /\ exists c,
       c ∈ subscribers (g_two "h1" "h1") "app"
       /\ qualifies (fun _ => "h1") (g_two "h1" "h1") (mgr_app doc_a1) c
       /\ c ∉ (pass_sends (process0 (g_two "h1" "h1") tt)
                 (fst (notify_changed send_closed (fun _ => "h1") (fun _ _ => "payload")
                         (fun _ => 0%Z) (mgr_app doc_a1)
                         (process0 (g_two "h1" "h1") tt)))).*1.
Proof.
  rewrite g_two_subscribers.
  split; [set_solver|]. split; [set_solver|].
  split; [apply g_two_qualifies_7|]. split; [apply g_two_qualifies_8|].
  split; [vm_compute; reflexivity|]. split; [vm_compute; reflexivity|].
  exists 7. split; [set_solver|]. split; [apply g_two_qualifies_7|].
  replace (pass_sends _ _) with [(8, "payload")] by (vm_compute; reflexivity).
  set_solver.
Qed.

(** ** The fingerprint function *)

Section FingerprintFacts.

Import Fingerprint.

Lemma leb_iff (a b : string) :
  String.leb a b = true <-> a = b \/ String_as_OT.lt a b.
Proof.
  unfold String.leb.
  destruct (String.compare a b) eqn:Hc.
  - apply String_as_OT.cmp_eq in Hc. tauto.
  - apply String_as_OT.cmp_lt in Hc. tauto.
  - split; [discriminate|]. intros [->|Hlt].
    + assert (String.compare b b = Eq) as Hb by (by apply String_as_OT.cmp_eq).
      unfold String_as_OT.cmp in Hb. congruence.
    + apply String_as_OT.cmp_lt in Hlt. unfold String_as_OT.cmp in Hlt. congruence.
Qed.

Lemma leb_trans (a b c : string) :
  String.leb a b = true -> String.leb b c = true -> String.leb a c = true.
Proof.
  rewrite !leb_iff. intros [->|Hab] [->|Hbc]; try tauto.
  right. by apply String_as_OT.lt_trans with b.
Qed.

Lemma leb_false (a b : string) : String.leb a b = false -> String.leb b a = true.
Proof.
  intros Hab. destruct (String.leb_total a b) as [H|H]; [congruence|done].
Qed.

Lemma insert_entry_comm (x y : string * json) (l : list (string * json)) :
  fst x <> fst y ->
  insert_entry x (insert_entry y l) = insert_entry y (insert_entry x l).
Proof.
  intros Hne.
  assert (String.leb (fst x) (fst y) = true -> String.leb (fst y) (fst x) = false) as Hxy.
  { intros H1. destruct (String.leb (fst y) (fst x)) eqn:H2; [|done].
    destruct Hne. by apply String.leb_antisym. }
  induction l as [|z l IH]; simpl.
  - destruct (String.leb (fst x) (fst y)) eqn:H1.
    + by rewrite (Hxy eq_refl).
    + by rewrite (leb_false _ _ H1).
  - destruct (String.leb (fst y) (fst z)) eqn:Hyz;
      destruct (String.leb (fst x) (fst z)) eqn:Hxz; simpl.
    + destruct (String.leb (fst x) (fst y)) eqn:H1.
      * by rewrite (Hxy eq_refl), Hyz.
      * by rewrite (leb_false _ _ H1), Hxz.
    + assert (String.leb (fst x) (fst y) = false) as H1.
      { destruct (String.leb (fst x) (fst y)) eqn:H1; [|done].
        by rewrite (leb_trans _ _ _ H1 Hyz) in Hxz. }
      by rewrite H1, Hxz, Hyz.
    + assert (String.leb (fst y) (fst x) = false) as H1.
      { destruct (String.leb (fst y) (fst x)) eqn:H1; [|done].
        by rewrite (leb_trans _ _ _ H1 Hxz) in Hyz. }
      by rewrite H1, Hxz, Hyz.
    + by rewrite Hxz, Hyz, IH.
Qed.

(** Sorting by key does not depend on the order of entries with
    distinct keys. *)
Lemma sort_entries_perm (l1 l2 : list (string * json)) :
  l1 ≡ₚ l2 -> NoDup (map fst l1) -> sort_entries l1 = sort_entries l2.
Proof.
  induction 1 as [|x l1 l2 Hp IH|x y l|l1 l2 l3 Hp1 IH1 Hp2 IH2]; intros Hnd.
  - done.
  - simpl. f_equal. apply IH. simpl in Hnd. by apply NoDup_cons in Hnd as [_ ?].
  - simpl. apply insert_entry_comm. simpl in Hnd.
    apply NoDup_cons in Hnd as [Hnotin _]. set_solver.
  - rewrite IH1 by done. apply IH2.
    pose proof (Permutation_map fst Hp1) as Hm. by rewrite <- Hm.
Qed.

End FingerprintFacts.

(** Induction on JSON values that reaches the items of an array and
    the values of a dict. *)
Lemma json_nested_ind (P : json -> Prop) :
  P JNull ->
  (forall b, P (JBool b)) ->
  (forall n, P (JNum n)) ->
  (forall s, P (JStr s)) ->
  (forall items, Forall P items -> P (JArr items)) ->
  (forall entries, Forall (fun kv => P (snd kv)) entries -> P (JObj entries)) ->
  forall j, P j.
Proof.
  intros Hnull Hbool Hnum Hstr Harr Hobj.
  fix IH 1. intros [ |b|n|s|items|entries].
  - exact Hnull.
  - apply Hbool.
  - apply Hnum.
  - apply Hstr.
  - apply Harr. induction items as [|j items IHitems]; constructor; [apply IH|exact IHitems].
  - apply Hobj. induction entries as [|[k j] entries IHentries]; constructor;
      [apply IH|exact IHentries].
Qed.

Lemma dict_get_Some_elem (k : string) (v : json) (d : pydict) :
  dict_get k d = Some v -> (k, v) ∈ d.
Proof.
  induction d as [|[k' v'] d IH]; simpl; [done|].
  destruct (String.eqb_spec k k') as [->|Hne].
  - intros [= ->]. left.
  - intros Hget. right. by apply IH.
Qed.

Lemma elem_dict_get (k : string) (v : json) (d : pydict) :
  NoDup (map fst d) -> (k, v) ∈ d -> dict_get k d = Some v.
Proof.
  induction d as [|[k' v'] d IH]; simpl; intros Hnd Hin.
  - by apply elem_of_nil in Hin.
  - apply NoDup_cons in Hnd as [Hnotin Hnd].
    apply elem_of_cons in Hin as [[= -> ->]|Hin].
    + by rewrite String.eqb_refl.
    + destruct (String.eqb_spec k k') as [->|Hne]; [|by apply IH].
      destruct Hnotin. apply list_elem_of_In, in_map_iff. exists (k', v).
      split; [done|]. by apply list_elem_of_In.
Qed.

Lemma wf_json_obj (d : pydict) :
  Fingerprint.wf_json (JObj d) = true ->
  NoDup (map fst d) /\ forall k v, (k, v) ∈ d -> Fingerprint.wf_json v = true.
Proof.
  simpl. intros [Hnd Hall]%andb_prop.
  split; [by apply bool_decide_eq_true in Hnd|].
  intros k v Hin. rewrite forallb_forall in Hall.
  by apply (Hall (k, v)), list_elem_of_In.
Qed.

(** The canonical form of a well-formed value depends on its content
    only. *)
Lemma canonical_same_content (j1 : json) :
  forall j2,
    Fingerprint.wf_json j1 = true -> Fingerprint.wf_json j2 = true ->
    Fingerprint.same_content j1 j2 ->
    Fingerprint.canonical j1 = Fingerprint.canonical j2.
Proof.
  induction j1 as [ |b|n|s|items IH|entries IH] using json_nested_ind;
    intros j2 Hwf1 Hwf2 Hsame; inversion Hsame; subst; try reflexivity.
  - (* arrays: item by item *)
    simpl. f_equal. simpl in Hwf1, Hwf2.
    match goal with H : Forall2 _ _ _ |- _ => rename H into Hitems end.
    clear Hsame. revert IH Hwf1 Hwf2.
    induction Hitems as [|x y l1 l2 Hxy Hl IHl]; intros IH Hwf1 Hwf2; [done|].
    simpl in *. apply andb_prop in Hwf1 as [Hx Hl1], Hwf2 as [Hy Hl2].
    apply Forall_cons in IH as [IHx IHrest].
    f_equal; [by apply IHx|by apply IHl].
  - (* dicts: the canonical entries are a permutation of each other *)
    match goal with H : forall k, option_Forall2 _ _ _ |- _ => rename H into Hget end.
    destruct (wf_json_obj _ Hwf1) as [Hnd1 Hv1].
    destruct (wf_json_obj _ Hwf2) as [Hnd2 Hv2].
    simpl. f_equal.
    set (ce := fun kv : string * json => (fst kv, Fingerprint.canonical (snd kv))).
    assert (forall d : pydict, map fst (map ce d) = map fst d) as Hkeys.
    { intros d. rewrite map_map. by apply map_ext. }
    apply sort_entries_perm; [|by rewrite Hkeys].
    apply NoDup_Permutation.
    + apply (NoDup_fmap_1 fst). change (NoDup (map fst (map ce entries))). by rewrite Hkeys.
    + apply (NoDup_fmap_1 fst). change (NoDup (map fst (map ce d2))). by rewrite Hkeys.
    + intros [k v']. rewrite !list_elem_of_In, !in_map_iff. split.
      * intros ([k1 v1] & [= <- <-] & Hin1). apply list_elem_of_In in Hin1.
        pose proof (elem_dict_get _ _ _ Hnd1 Hin1) as Hg1.
        specialize (Hget k1). rewrite Hg1 in Hget. inversion Hget as [? v2 Hvv Heq1 Heq2|]; subst.
        symmetry in Heq2. apply dict_get_Some_elem in Heq2.
        exists (k1, v2). split; [|by apply list_elem_of_In].
        unfold ce. simpl. f_equal. symmetry.
        rewrite Forall_forall in IH.
        apply (IH (k1, v1) Hin1); eauto.
      * intros ([k2 v2] & [= <- <-] & Hin2). apply list_elem_of_In in Hin2.
        pose proof (elem_dict_get _ _ _ Hnd2 Hin2) as Hg2.
        specialize (Hget k2). rewrite Hg2 in Hget. inversion Hget as [v1 ? Hvv Heq1 Heq2|]; subst.
        symmetry in Heq1. apply dict_get_Some_elem in Heq1.
        exists (k2, v1). split; [|by apply list_elem_of_In].
        unfold ce. simpl. f_equal.
        rewrite Forall_forall in IH.
        apply (IH (k2, v1) Heq1); eauto.
Qed.

(** C9: the fingerprint of a manager is a function of its document's
    content only: two managers holding the same document have the same
    [hash_code], and so do two managers whose documents have equal
    key/value content with the keys inserted in different orders. *)
Theorem hash_code_key_order_independent
    (json_dumps : option nat -> json -> string) (digest : string -> string)
    (m1 m2 : ConfigManager.t) :
  (ConfigManager._source_data m1 = ConfigManager._source_data m2 ->
   ConfigManager.hash_code (Fingerprint.to_hash json_dumps digest) m1
   = ConfigManager.hash_code (Fingerprint.to_hash json_dumps digest) m2)
  /\ (Fingerprint.wf_json (JObj (ConfigManager._source_data m1)) = true ->
      Fingerprint.wf_json (JObj (ConfigManager._source_data m2)) = true ->
      Fingerprint.same_content (JObj (ConfigManager._source_data m1))
                               (JObj (ConfigManager._source_data m2)) ->
      ConfigManager.hash_code (Fingerprint.to_hash json_dumps digest) m1
      = ConfigManager.hash_code (Fingerprint.to_hash json_dumps digest) m2).
Proof.
  unfold ConfigManager.hash_code, Fingerprint.to_hash. split.
  - by intros ->.
  - intros Hwf1 Hwf2 Hsame.
    by rewrite (canonical_same_content _ _ Hwf1 Hwf2 Hsame).
Qed.

Lemma doc_ab_same_content : Fingerprint.same_content (JObj doc_ab) (JObj doc_ba).
Proof.
  constructor. intros k. unfold doc_ab, doc_ba. simpl.
  destruct (String.eqb_spec k "a") as [->|Ha]; simpl; [repeat constructor|].
  destruct (String.eqb_spec k "b") as [->|Hb]; simpl; [|constructor].
  constructor. constructor. intros k. simpl.
  destruct (String.eqb_spec k "x") as [->|Hx]; simpl; [repeat constructor|].
  destruct (String.eqb_spec k "y") as [->|Hy]; simpl; repeat constructor.
Qed.

Lemma hash_code_key_order_independent_witness :
  doc_ab <> doc_ba
  /\ ConfigManager.hash_code (Fingerprint.to_hash (fun _ => render) (fun s => s))
       (mgr_app doc_ab)
     = "{a:1,b:{x:'s',y:[null,true]}}"
  /\ ConfigManager.hash_code (Fingerprint.to_hash (fun _ => render) (fun s => s))
       (mgr_app doc_ab)
     = ConfigManager.hash_code (Fingerprint.to_hash (fun _ => render) (fun s => s))
         (mgr_app doc_ba).
Proof.
  split; [discriminate|]. split; [vm_compute; reflexivity|].
  apply (proj2 (hash_code_key_order_independent (fun _ => render) (fun s => s)
                  (mgr_app doc_ab) (mgr_app doc_ba))).
  - vm_compute. reflexivity.
  - vm_compute. reflexivity.
  - exact doc_ab_same_content.
Defined.

(** * Further properties of the module *)

(** ** The registry: what a call leaves alone, and how calls compose *)

(** X1: [register_connected_ws], whether it returns or raises, changes
    the subscriber set of no other config name and the stored message of
    no other connection, removes no subscriber from any set, and leaves
    the manager table as it was. *)
Theorem register_connected_ws_frame (message : Message.t) (ws : conn) (g : globals) :
  (forall name, name <> Message.config_name message ->
     connected (fst (register_connected_ws message ws g)) !! name = connected g !! name)
  /\ (forall ws', ws' <> ws ->
        connected_message (fst (register_connected_ws message ws g)) !! ws'
        = connected_message g !! ws')
  /\ (forall name c, c ∈ subscribers g name ->
        c ∈ subscribers (fst (register_connected_ws message ws g)) name)
  /\ config_store_state (fst (register_connected_ws message ws g)) = config_store_state g.
Proof.
  rewrite register_connected_ws_eq.
  destruct (connected g !! Message.config_name message) as [s|] eqn:Hs; simpl; [|done].
  repeat split.
  - intros name Hne. by rewrite lookup_insert_ne.
  - intros ws' Hne. by rewrite lookup_insert_ne.
  - intros name c. unfold subscribers. simpl.
    destruct (decide (Message.config_name message = name)) as [<-|Hne].
    + rewrite Hs, lookup_insert_eq. simpl. set_solver.
    + by rewrite lookup_insert_ne.
Qed.

(** X2: [remove_connected_ws] changes the subscriber set of no other
    config name and the stored message of no other connection, keeps
    every other member of the named set, and leaves the manager table as
    it was. *)
Theorem remove_connected_ws_frame (name : string) (ws : conn) (g : globals) :
  (forall name', name' <> name ->
     connected (fst (remove_connected_ws name ws g)) !! name' = connected g !! name')
  /\ (forall ws', ws' <> ws ->
        connected_message (fst (remove_connected_ws name ws g)) !! ws'
        = connected_message g !! ws')
  /\ (forall c, c <> ws ->
        (c ∈ subscribers (fst (remove_connected_ws name ws g)) name
         <-> c ∈ subscribers g name))
  /\ config_store_state (fst (remove_connected_ws name ws g)) = config_store_state g.
Proof.
  rewrite remove_connected_ws_eq. simpl. repeat split.
  - intros name' Hne. destruct (connected g !! name); [|done]. by rewrite lookup_insert_ne.
  - intros ws' Hne. by rewrite lookup_delete_ne.
  - unfold subscribers. simpl.
    destruct (connected g !! name) as [s|] eqn:Hs; [|by rewrite Hs].
    rewrite lookup_insert_eq. simpl. set_solver.
  - unfold subscribers. simpl.
    destruct (connected g !! name) as [s|] eqn:Hs; [|by rewrite Hs].
    rewrite lookup_insert_eq. simpl. set_solver.
Qed.

(** X3: no sequence of register and remove calls creates or deletes a
    config name: the keys of [connected] and the whole manager table are
    the same before and after, so a name that [register_connected_ws]
    rejects keeps being rejected. *)
Theorem run_calls_known_names (cs : list call) (g : globals) :
  dom (connected (run_calls cs g)) = dom (connected g)
  /\ config_store_state (run_calls cs g) = config_store_state g.
Proof.
  revert g. induction cs as [|c cs IH]; intros g; [done|].
  simpl. destruct (IH (fst (run_call c g))) as [-> ->].
  destruct c as [message ws|name ws]; simpl.
  - rewrite register_connected_ws_eq.
    destruct (connected g !! Message.config_name message) as [s|] eqn:Hs; simpl; [|done].
    split; [|done]. rewrite dom_insert_L.
    apply (elem_of_dom_2 (D := gset string)) in Hs. set_solver.
  - rewrite remove_connected_ws_eq. simpl. split; [|done].
    destruct (connected g !! name) as [s|] eqn:Hs; [|done].
    rewrite dom_insert_L. apply (elem_of_dom_2 (D := gset string)) in Hs. set_solver.
Qed.

(** X4: for a known config name, removing a connection and registering
    it again with a message for that config gives exactly what
    registering alone gives. *)
Theorem remove_then_register (message : Message.t) (ws : conn) (g : globals) :
  is_Some (connected g !! Message.config_name message) ->
  (remove_connected_ws (Message.config_name message) ws ;;;
   register_connected_ws message ws)%py g
  = register_connected_ws message ws g.
Proof.
  intros [s Hs]. unfold bind.
  rewrite remove_connected_ws_eq, !register_connected_ws_eq, Hs. simpl.
  rewrite lookup_insert_eq, insert_insert_eq, insert_delete_eq.
  by rewrite difference_union_L.
Qed.

Lemma remove_then_register_witness :
  is_Some (connected g_app !! "app")
  /\ (remove_connected_ws "app" 7 ;;; register_connected_ws (msg_app "h1") 7)%py g_app
     = register_connected_ws (msg_app "h1") 7 g_app.
Proof.
  assert (is_Some (connected g_app !! "app")) as Hs.
  { exists ∅. vm_compute. reflexivity. }
  split; [exact Hs|].
  exact (remove_then_register (msg_app "h1") 7 g_app Hs).
Defined.

(** X5: registering a connection under one known config and then under
    another, with no removal in between, leaves it in both subscriber
    sets while its stored message is the second one. *)
Theorem register_two_configs (mA mB : Message.t) (ws : conn) (g : globals) :
  Message.config_name mA <> Message.config_name mB ->
  is_Some (connected g !! Message.config_name mA) ->
  is_Some (connected g !! Message.config_name mB) ->
  snd ((register_connected_ws mA ws ;;; register_connected_ws mB ws)%py g) = inr tt
  /\ ws ∈ subscribers
       (fst ((register_connected_ws mA ws ;;; register_connected_ws mB ws)%py g))
       (Message.config_name mA)
  /\ ws ∈ subscribers
       (fst ((register_connected_ws mA ws ;;; register_connected_ws mB ws)%py g))
       (Message.config_name mB)
  /\ connected_message
       (fst ((register_connected_ws mA ws ;;; register_connected_ws mB ws)%py g)) !! ws
     = Some mB.
Proof.
  intros Hne [sA HA] [sB HB]. unfold bind.
  rewrite (register_connected_ws_eq mA), HA, register_connected_ws_eq. simpl.
  rewrite lookup_insert_ne, HB by done. unfold subscribers. simpl.
  rewrite lookup_insert_ne, !lookup_insert_eq by done. simpl.
  repeat split; set_solver.
Qed.

(** X6: removing a connection under a config name other than the one
    it is subscribed to deletes its stored message but leaves it in the
    subscriber set it was in. *)
Theorem remove_other_name (name name' : string) (ws : conn) (g : globals) :
  name' <> name ->
  ws ∈ subscribers g name ->
  ws ∈ subscribers (fst (remove_connected_ws name' ws g)) name
  /\ connected_message (fst (remove_connected_ws name' ws g)) !! ws = None.
Proof.
  intros Hne Hin. rewrite remove_connected_ws_eq. simpl.
  split; [|apply lookup_delete_eq].
  unfold subscribers in *. simpl.
  destruct (connected g !! name'); [|done]. by rewrite lookup_insert_ne.
Qed.

Lemma register_two_configs_witness :
  snd ((register_connected_ws (msg_app "h1") 7 ;;;
        register_connected_ws (msg_web "h2") 7)%py g_app_web) = inr tt
  /\ 7 ∈ subscribers
          (fst ((register_connected_ws (msg_app "h1") 7 ;;;
                 register_connected_ws (msg_web "h2") 7)%py g_app_web)) "app"
  /\ 7 ∈ subscribers
          (fst ((register_connected_ws (msg_app "h1") 7 ;;;
                 register_connected_ws (msg_web "h2") 7)%py g_app_web)) "web"
  /\ connected_message
       (fst ((register_connected_ws (msg_app "h1") 7 ;;;
              register_connected_ws (msg_web "h2") 7)%py g_app_web)) !! 7
     = Some (msg_web "h2").
Proof.
  apply (register_two_configs (msg_app "h1") (msg_web "h2") 7 g_app_web).
  - simpl. discriminate.
  - exists ∅. vm_compute. reflexivity.
  - exists ∅. vm_compute. reflexivity.
Defined.

Lemma remove_other_name_witness :
  7 ∈ subscribers (g_two "h1" "h0") "app"
  /\ 7 ∈ subscribers (fst (remove_connected_ws "web" 7 (g_two "h1" "h0"))) "app"
  /\ connected_message (fst (remove_connected_ws "web" 7 (g_two "h1" "h0"))) !! 7 = None.
Proof.
  assert (7 ∈ subscribers (g_two "h1" "h0") "app") as Hin.
  { rewrite g_two_subscribers. set_solver. }
  split; [exact Hin|].
  apply (remove_other_name "app" "web" 7 (g_two "h1" "h0")); [discriminate|exact Hin].
Defined.

(** ** [display_info] *)

Lemma connected_len_eq (name : string) (g : globals) :
  connected_len name g = (g, inr (size (subscribers g name))).
Proof.
  unfold connected_len, subscribers.
  destruct (connected g !! name) as [s|]; simpl.
  - destruct (decide (s = ∅)) as [->|]; done.
  - done.
Qed.

Lemma display_info_eq json_dumps (M : ConfigManager.t) (g : globals) :
  display_info json_dumps M g =
  (g, inr {| di_config_name := ConfigManager.config_name M;
             connect_num := size (subscribers g (ConfigManager.config_name M));
             di_source_data :=
               json_dumps (Some 4) (JObj (ConfigManager._source_data M)) |}).
Proof. unfold display_info, bind. by rewrite connected_len_eq. Qed.

(** X7: [display_info] changes nothing and reports as [connect_num] the
    number of subscribers of the manager's config (0 for an unknown
    name); a successful registration under that config raises the count
    by one for a new connection and leaves it for one already
    subscribed. *)
Theorem display_info_after_register json_dumps
    (M : ConfigManager.t) (message : Message.t) (ws : conn) (g : globals) :
  Message.config_name message = ConfigManager.config_name M ->
  is_Some (connected g !! ConfigManager.config_name M) ->
  display_info json_dumps M g =
    (g, inr {| di_config_name := ConfigManager.config_name M;
               connect_num := size (subscribers g (ConfigManager.config_name M));
               di_source_data :=
                 json_dumps (Some 4) (JObj (ConfigManager._source_data M)) |})
  /\ display_info json_dumps M (fst (register_connected_ws message ws g)) =
       (fst (register_connected_ws message ws g),
        inr {| di_config_name := ConfigManager.config_name M;
               connect_num :=
                 if decide (ws ∈ subscribers g (ConfigManager.config_name M))
                 then size (subscribers g (ConfigManager.config_name M))
                 else S (size (subscribers g (ConfigManager.config_name M)));
               di_source_data :=
                 json_dumps (Some 4) (JObj (ConfigManager._source_data M)) |}).
Proof.
  intros Hname [s Hs]. split; [apply display_info_eq|].
  rewrite display_info_eq. do 3 f_equal.
  rewrite register_connected_ws_eq, Hname, Hs. unfold subscribers. simpl.
  rewrite Hs, lookup_insert_eq. simpl.
  destruct (decide (ws ∈ s)) as [Hin|Hnot].
  - by rewrite (union_singleton_id _ _ Hin).
  - rewrite size_union by set_solver. rewrite size_singleton. lia.
Qed.

Lemma display_info_after_register_witness :
  display_info (fun _ _ => "doc") (mgr_app doc_a1) (g_two "h1" "h0") =
    (g_two "h1" "h0",
     inr {| di_config_name := "app"; connect_num := 2; di_source_data := "doc" |})
  /\ snd (display_info (fun _ _ => "doc") (mgr_app doc_a1)
            (fst (register_connected_ws (msg_app "h1") 9 (g_two "h1" "h0"))))
     = inr {| di_config_name := "app"; connect_num := 3; di_source_data := "doc" |}.
Proof.
  destruct (display_info_after_register (fun _ _ => "doc") (mgr_app doc_a1)
              (msg_app "h1") 9 (g_two "h1" "h0") eq_refl) as [H1 H2].
  { eexists. unfold g_two. simpl. apply lookup_singleton_eq. }
  rewrite H1, H2. simpl. rewrite g_two_subscribers.
  split; vm_compute; reflexivity.
Defined.

(** X8: removing a connection lowers the [connect_num] that
    [display_info] reports for the named config by one when the
    connection was subscribed to it, and leaves it otherwise. *)
Theorem display_info_after_remove json_dumps
    (M : ConfigManager.t) (ws : conn) (g : globals) :
  display_info json_dumps M
    (fst (remove_connected_ws (ConfigManager.config_name M) ws g)) =
  (fst (remove_connected_ws (ConfigManager.config_name M) ws g),
   inr {| di_config_name := ConfigManager.config_name M;
          connect_num :=
            if decide (ws ∈ subscribers g (ConfigManager.config_name M))
            then size (subscribers g (ConfigManager.config_name M)) - 1
            else size (subscribers g (ConfigManager.config_name M));
          di_source_data :=
            json_dumps (Some 4) (JObj (ConfigManager._source_data M)) |}).
Proof.
  rewrite display_info_eq. do 3 f_equal.
  rewrite remove_connected_ws_eq. unfold subscribers. simpl.
  destruct (connected g !! ConfigManager.config_name M) as [s|] eqn:Hs; simpl.
  - rewrite lookup_insert_eq. simpl.
    destruct (decide (ws ∈ s)) as [Hin|Hnot].
    + rewrite size_difference by set_solver. by rewrite size_singleton.
    + by rewrite (difference_singleton_id _ _ Hnot).
  - rewrite Hs. simpl. destruct (decide (ws ∈ ∅)); [set_solver|done].
Qed.

(** ** More on the dispatcher *)

Section DispatcherMore.

Context {T : Type}.
Variable send : conn -> string -> Py T unit.
Variable to_hash : document -> string.
Variable json_dumps : option nat -> json -> string.
Variable convert_dt : option Z -> Z.
Variable M : ConfigManager.t.

(** The module state a pass leaves, whatever its outcome. *)
Lemma notify_changed_module_eq (p : process T) :
  module (fst (notify_changed send to_hash json_dumps convert_dt M p))
  = set_config_store_state (fun c => <[ConfigManager.config_name M := M]> c) (module p).
Proof.
  rewrite notify_changed_eq.
  match goal with
  | |- context [for_each ?l _ ?p1] =>
      destruct (for_each_notify send to_hash json_dumps convert_dt M l p1)
        as (l1 & l2 & _ & Hmod & _)
  end.
  by rewrite Hmod.
Qed.

(** When no [send] raises, the loop returns. *)
Lemma for_each_notify_returns (l : list conn) :
  (forall c payload t, exists t', send c payload t = (t', inr tt)) ->
  forall p, returns (for_each l (notify_client send to_hash json_dumps convert_dt M) p).
Proof.
  intros Hsend. induction l as [|c l IH]; intros p; [by exists tt|].
  simpl. unfold bind. rewrite notify_client_eq.
  destruct (target to_hash json_dumps convert_dt (connected_message (module p)) M c)
    as [call|]; [|apply IH].
  destruct (Hsend (fst call) (snd call) (transport p)) as [t' ->]. simpl. apply IH.
Qed.

(** The calls of a pass that returns: one per qualifying connection, in
    the order of the walk. *)
Lemma notify_changed_returns_sent (p : process T) :
  returns (notify_changed send to_hash json_dumps convert_dt M p) ->
  sent (fst (notify_changed send to_hash json_dumps convert_dt M p))
  = sent p
    ++ omap (target to_hash json_dumps convert_dt (connected_message (module p)) M)
         (match snd (clients_of (ConfigManager.config_name M) (module p)) with
          | inr l => l
          | inl _ => []
          end).
Proof.
  rewrite notify_changed_eq. intros Hret.
  match goal with
  | |- context [for_each ?l _ ?p1] =>
      destruct (for_each_notify send to_hash json_dumps convert_dt M l p1)
        as (l1 & l2 & Hl & _ & Hsent & Hnil)
  end.
  rewrite Hsent. simpl. rewrite Hl, (Hnil Hret), app_nil_r. done.
Qed.

(** The calls of any pass, returned or not. *)
Lemma notify_changed_sent_prefix (p : process T) :
  exists l1 l2,
    (match snd (clients_of (ConfigManager.config_name M) (module p)) with
     | inr l => l
     | inl _ => []
     end) = l1 ++ l2
    /\ pass_sends p (fst (notify_changed send to_hash json_dumps convert_dt M p))
       = omap (target to_hash json_dumps convert_dt (connected_message (module p)) M) l1.
Proof.
  rewrite notify_changed_eq.
  match goal with
  | |- context [for_each ?l _ ?p1] =>
      destruct (for_each_notify send to_hash json_dumps convert_dt M l p1)
        as (l1 & l2 & Hl & _ & Hsent & _)
  end.
  exists l1, l2. split; [done|].
  unfold pass_sends. rewrite Hsent. simpl. by rewrite drop_app_length.
Qed.

End DispatcherMore.

(** X9: whatever its outcome, a pass of [notify_changed] for [M] leaves
    the subscriber sets and the stored messages as they were and records
    [M] in the manager table under its own name, so that
    [get_config_store] then returns [M]. *)
Theorem notify_changed_records_manager {T : Type}
    (send : conn -> string -> Py T unit) (to_hash : document -> string)
    (json_dumps : option nat -> json -> string) (convert_dt : option Z -> Z)
    (M : ConfigManager.t) (p : process T) :
  connected (module (fst (notify_changed send to_hash json_dumps convert_dt M p)))
  = connected (module p)
  /\ connected_message (module (fst (notify_changed send to_hash json_dumps convert_dt M p)))
     = connected_message (module p)
  /\ config_store_state (module (fst (notify_changed send to_hash json_dumps convert_dt M p)))
     = <[ConfigManager.config_name M := M]> (config_store_state (module p))
  /\ get_config_store (ConfigManager.config_name M)
       (module (fst (notify_changed send to_hash json_dumps convert_dt M p)))
     = (module (fst (notify_changed send to_hash json_dumps convert_dt M p)), inr M).
Proof.
  rewrite notify_changed_module_eq. simpl. repeat split.
  unfold get_config_store. py_unfold. simpl. by rewrite lookup_insert_eq.
Qed.

(** X10: a manager table in which every manager sits under its own
    config name stays so after a pass of [notify_changed]. *)
Theorem notify_changed_keyed_by_name {T : Type}
    (send : conn -> string -> Py T unit) (to_hash : document -> string)
    (json_dumps : option nat -> json -> string) (convert_dt : option Z -> Z)
    (M : ConfigManager.t) (p : process T) :
  keyed_by_name (module p) ->
  keyed_by_name (module (fst (notify_changed send to_hash json_dumps convert_dt M p))).
Proof.
  intros Hk name m. rewrite notify_changed_module_eq. simpl.
  destruct (decide (ConfigManager.config_name M = name)) as [<-|Hne].
  - rewrite lookup_insert_eq. by intros [= <-].
  - rewrite lookup_insert_ne by done. apply Hk.
Qed.

(** X11: for a config with no subscriber set, or an empty one, a pass
    returns at once: no [send] is made and the transport is untouched. *)
Theorem notify_changed_no_subscribers {T : Type}
    (send : conn -> string -> Py T unit) (to_hash : document -> string)
    (json_dumps : option nat -> json -> string) (convert_dt : option Z -> Z)
    (M : ConfigManager.t) (p : process T) :
  subscribers (module p) (ConfigManager.config_name M) = ∅ ->
  notify_changed send to_hash json_dumps convert_dt M p
  = ({| module := set_config_store_state
                    (fun c => <[ConfigManager.config_name M := M]> c) (module p);
        transport := transport p;
        sent := sent p |}, inr tt).
Proof.
  intros Hempty. rewrite notify_changed_eq.
  unfold clients_of, subscribers in *.
  destruct (connected (module p) !! ConfigManager.config_name M) as [s|]; simpl in *;
    [|done].
  subst s. by destruct (decide (∅ = ∅)).
Qed.

Lemma notify_changed_keyed_by_name_witness :
  keyed_by_name (module (process0 (g_two "h1" "h0") tt))
  /\ keyed_by_name
       (module (fst (notify_changed_closed (mgr_app doc_a1)
                       (process0 (g_two "h1" "h0") tt)))).
Proof.
  assert (keyed_by_name (module (process0 (g_two "h1" "h0") tt))) as Hk.
  { intros name m Hm. simpl in Hm. rewrite lookup_empty in Hm. discriminate Hm. }
  split; [exact Hk|].
  exact (notify_changed_keyed_by_name send_closed (fun _ => "h1") (fun _ _ => "payload")
           (fun _ => 0%Z) (mgr_app doc_a1) (process0 (g_two "h1" "h0") tt) Hk).
Defined.

Lemma notify_changed_no_subscribers_witness :
  subscribers (module (process0 g_app tt)) "app" = ∅
  /\ snd (notify_changed_closed (mgr_app doc_a1) (process0 g_app tt)) = inr tt
  /\ sent (fst (notify_changed_closed (mgr_app doc_a1) (process0 g_app tt))) = [].
Proof.
  assert (subscribers (module (process0 g_app tt)) (ConfigManager.config_name (mgr_app doc_a1))
          = ∅) as He.
  { unfold subscribers. simpl. by rewrite lookup_singleton_eq. }
  split; [exact He|].
  unfold notify_changed_closed.
  rewrite (notify_changed_no_subscribers send_closed (fun _ => "h1") (fun _ _ => "payload")
             (fun _ => 0%Z) (mgr_app doc_a1) (process0 g_app tt) He).
  split; reflexivity.
Defined.

Lemma notify_changed_total {T : Type}
    (send : conn -> string -> Py T unit) (to_hash : document -> string)
    (json_dumps : option nat -> json -> string) (convert_dt : option Z -> Z)
    (M : ConfigManager.t) (p : process T) :
  (forall c payload t, exists t', send c payload t = (t', inr tt)) ->
  returns (notify_changed send to_hash json_dumps convert_dt M p).
Proof.
  intros Hsend. rewrite notify_changed_eq. by apply for_each_notify_returns.
Qed.

Lemma send_ok_total (c : conn) (payload : string) (t : list (conn * string)) :
  exists t', send_ok c payload t = (t', inr tt).
Proof. eexists. reflexivity. Qed.

(** X12: once a connection has registered for one config, a pass for a
    manager of any other config never sends to it, even when it is still
    in that other config's subscriber set. *)
Theorem notify_changed_after_register_other {T : Type}
    (send : conn -> string -> Py T unit) (to_hash : document -> string)
    (json_dumps : option nat -> json -> string) (convert_dt : option Z -> Z)
    (M : ConfigManager.t) (message : Message.t) (ws : conn) (p : process T) :
  Message.config_name message <> ConfigManager.config_name M ->
  is_Some (connected (module p) !! Message.config_name message) ->
  ws ∉ (pass_sends p
          (fst ((on_module (register_connected_ws message ws) ;;;
                 notify_changed send to_hash json_dumps convert_dt M)%py p))).*1.
Proof.
  intros Hne [s Hs]. unfold bind, on_module.
  rewrite register_connected_ws_eq, Hs.
  match goal with
  | |- context [notify_changed _ _ _ _ _ ?p1] =>
      destruct (notify_changed_sent_prefix send to_hash json_dumps convert_dt M p1)
        as (l1 & l2 & _ & Hsent);
      change (pass_sends p (fst (notify_changed send to_hash json_dumps convert_dt M p1)))
        with (pass_sends p1 (fst (notify_changed send to_hash json_dumps convert_dt M p1)))
  end.
  rewrite Hsent. simpl. intros Hin.
  apply list_elem_of_fmap in Hin as ([c payload] & -> & Hin).
  apply list_elem_of_omap in Hin as (c' & _ & Htarget).
  apply target_Some in Htarget as (Hfst & m & Hm & Hname & _). simpl in Hfst. subst c'.
  simpl in Hm. rewrite lookup_insert_eq in Hm. by simplify_eq.
Qed.

(** X13: on a transport whose [send] does not raise, a connection that
    registers for the manager's config is sent a message by the next
    pass exactly when the fingerprint in its registration message equals
    the manager's current fingerprint. *)
Theorem notify_changed_after_register {T : Type}
    (send : conn -> string -> Py T unit) (to_hash : document -> string)
    (json_dumps : option nat -> json -> string) (convert_dt : option Z -> Z)
    (M : ConfigManager.t) (message : Message.t) (ws : conn) (p : process T) :
  (forall c payload t, exists t', send c payload t = (t', inr tt)) ->
  Message.config_name message = ConfigManager.config_name M ->
  is_Some (connected (module p) !! Message.config_name message) ->
  returns ((on_module (register_connected_ws message ws) ;;;
            notify_changed send to_hash json_dumps convert_dt M)%py p)
  /\ (ws ∈ (pass_sends p
              (fst ((on_module (register_connected_ws message ws) ;;;
                     notify_changed send to_hash json_dumps convert_dt M)%py p))).*1
      <-> Message.hash_code message = ConfigManager.hash_code to_hash M).
Proof.
  intros Hsend Hname [s Hs]. unfold bind, on_module.
  rewrite register_connected_ws_eq, Hs.
  match goal with
  | |- context [notify_changed _ _ _ _ _ ?p1] =>
      pose proof (notify_changed_total send to_hash json_dumps convert_dt M p1 Hsend) as Hret;
      pose proof (notify_changed_returns_sent send to_hash json_dumps convert_dt M p1 Hret)
        as Hsent;
      pose proof (clients_of_elem (module p1) (ConfigManager.config_name M) ws) as Helem;
      change (pass_sends p (fst (notify_changed send to_hash json_dumps convert_dt M p1)))
        with (pass_sends p1 (fst (notify_changed send to_hash json_dumps convert_dt M p1)))
  end.
  split; [exact Hret|].
  unfold pass_sends. rewrite Hsent, drop_app_length.
  rewrite target_fst, list_elem_of_filter.
  rewrite <- (target_qualifies to_hash json_dumps convert_dt M).
  rewrite Helem. unfold subscribers, qualifies. simpl.
  rewrite <- Hname, !lookup_insert_eq. simpl. split.
  - intros [(m & Hm & _ & Hhash) _]. by simplify_eq.
  - intros Hhash. split; [by exists message|set_solver].
Qed.

Lemma notify_changed_after_register_witness :
  returns ((on_module (register_connected_ws (msg_app "h1") 9) ;;; notify_changed_ok
              (mgr_app doc_a1))%py (process0 g_app []))
  /\ (9 ∈ (pass_sends (process0 g_app [])
             (fst ((on_module (register_connected_ws (msg_app "h1") 9) ;;;
                    notify_changed_ok (mgr_app doc_a1))%py (process0 g_app [])))).*1
      <-> Message.hash_code (msg_app "h1")
          = ConfigManager.hash_code (fun _ => "h1") (mgr_app doc_a1)).
Proof.
  apply (notify_changed_after_register send_ok (fun _ => "h1") (fun _ _ => "payload")
           (fun _ => 0%Z) (mgr_app doc_a1) (msg_app "h1") 9 (process0 g_app [])).
  - exact send_ok_total.
  - reflexivity.
  - exists ∅. vm_compute. reflexivity.
Defined.

Lemma notify_changed_after_register_other_witness :
  is_Some (connected g_app_web !! "web")
  /\ (9 ∉ (pass_sends (process0 g_app_web [])
             (fst ((on_module (register_connected_ws (msg_web "h1") 9) ;;;
                    notify_changed_ok (mgr_app doc_a1))%py (process0 g_app_web [])))).*1).
Proof.
  assert (is_Some (connected g_app_web !! "web")) as Hs.
  { exists ∅. vm_compute. reflexivity. }
  split; [exact Hs|].
  apply (notify_changed_after_register_other send_ok (fun _ => "h1") (fun _ _ => "payload")
           (fun _ => 0%Z) (mgr_app doc_a1) (msg_web "h1") 9 (process0 g_app_web []));
    [simpl; discriminate|exact Hs].
Defined.

(** X14: on a transport whose [send] does not raise, a pass returns and
    the connections it sends to are exactly the subscribers of the
    manager's config whose stored message names that config and carries
    the manager's current fingerprint. *)
Theorem notify_changed_reliable_transport {T : Type}
    (send : conn -> string -> Py T unit) (to_hash : document -> string)
    (json_dumps : option nat -> json -> string) (convert_dt : option Z -> Z)
    (M : ConfigManager.t) (p : process T) :
  (forall c payload t, exists t', send c payload t = (t', inr tt)) ->
  returns (notify_changed send to_hash json_dumps convert_dt M p)
  /\ (forall c,
        c ∈ (pass_sends p (fst (notify_changed send to_hash json_dumps convert_dt M p))).*1
        <-> c ∈ subscribers (module p) (ConfigManager.config_name M)
            /\ qualifies to_hash (module p) M c).
Proof.
  intros Hsend.
  pose proof (notify_changed_total send to_hash json_dumps convert_dt M p Hsend) as Hret.
  split; [exact Hret|]. intros c.
  unfold pass_sends.
  rewrite (notify_changed_returns_sent send to_hash json_dumps convert_dt M p Hret).
  rewrite drop_app_length, target_fst, list_elem_of_filter.
  rewrite <- (target_qualifies to_hash json_dumps convert_dt M).
  rewrite clients_of_elem. tauto.
Qed.

Lemma notify_changed_reliable_transport_witness :
  returns (notify_changed_ok (mgr_app doc_a1) (process0 (g_two "h1" "h0") []))
  /\ (forall c,
        c ∈ (pass_sends (process0 (g_two "h1" "h0") [])
               (fst (notify_changed_ok (mgr_app doc_a1)
                       (process0 (g_two "h1" "h0") [])))).*1
        <-> c ∈ subscribers (g_two "h1" "h0") "app"
            /\ qualifies (fun _ => "h1") (g_two "h1" "h0") (mgr_app doc_a1) c).
Proof.
  exact (notify_changed_reliable_transport send_ok (fun _ => "h1") (fun _ _ => "payload")
           (fun _ => 0%Z) (mgr_app doc_a1) (process0 (g_two "h1" "h0") []) send_ok_total).
Defined.

(** X15: every message a pass sends is the same text, whoever receives
    it and whatever request is kept in the receiver's stored message:
    [json.dumps] of the dict with [message_type] ["changed"], the
    manager's config name, its current fingerprint and its current
    document. *)
Theorem notify_changed_payload {T : Type}
    (send : conn -> string -> Py T unit) (to_hash : document -> string)
    (json_dumps : option nat -> json -> string) (convert_dt : option Z -> Z)
    (M : ConfigManager.t) (p : process T) :
  forall c payload,
    (c, payload) ∈ pass_sends p (fst (notify_changed send to_hash json_dumps convert_dt M p)) ->
    payload =
      json_dumps None
        (JObj [("message_type", JStr MT_CHANGED);
               ("config_name", JStr (ConfigManager.config_name M));
               ("hash_code", JStr (to_hash (ConfigManager._source_data M)));
               ("data", JObj (ConfigManager._source_data M))]).
Proof.
  intros c payload Hin.
  destruct (notify_changed_sent_prefix send to_hash json_dumps convert_dt M p)
    as (l1 & l2 & _ & Hsent).
  rewrite Hsent in Hin.
  apply list_elem_of_omap in Hin as (c' & _ & Htarget).
  apply target_Some in Htarget as (_ & m & _ & _ & _ & Hpayload).
  simpl in Hpayload. by injection Hpayload as <-.
Qed.

(** X16: the dispatcher keeps no record of what it sent: when two
    passes for the same manager run one after the other and both return,
    the second makes the same [send] calls as the first. *)
Theorem notify_changed_twice {T : Type}
    (send : conn -> string -> Py T unit) (to_hash : document -> string)
    (json_dumps : option nat -> json -> string) (convert_dt : option Z -> Z)
    (M : ConfigManager.t) (p : process T) :
  returns (notify_changed send to_hash json_dumps convert_dt M p) ->
  returns (notify_changed send to_hash json_dumps convert_dt M
             (fst (notify_changed send to_hash json_dumps convert_dt M p))) ->
  pass_sends (fst (notify_changed send to_hash json_dumps convert_dt M p))
    (fst (notify_changed send to_hash json_dumps convert_dt M
            (fst (notify_changed send to_hash json_dumps convert_dt M p))))
  = pass_sends p (fst (notify_changed send to_hash json_dumps convert_dt M p)).
Proof.
  intros Hret1 Hret2. unfold pass_sends.
  rewrite (notify_changed_returns_sent send to_hash json_dumps convert_dt M _ Hret2).
  rewrite (notify_changed_returns_sent send to_hash json_dumps convert_dt M _ Hret1).
  rewrite !drop_app_length.
  rewrite notify_changed_module_eq. unfold clients_of. simpl.
  by destruct (connected (module p) !! ConfigManager.config_name M).
Qed.

Lemma notify_changed_twice_witness :
  returns (notify_changed_ok (mgr_app doc_a1) (process0 (g_two "h1" "h0") []))
  /\ pass_sends (fst (notify_changed_ok (mgr_app doc_a1) (process0 (g_two "h1" "h0") [])))
       (fst (notify_changed_ok (mgr_app doc_a1)
               (fst (notify_changed_ok (mgr_app doc_a1) (process0 (g_two "h1" "h0") [])))))
     = pass_sends (process0 (g_two "h1" "h0") [])
         (fst (notify_changed_ok (mgr_app doc_a1) (process0 (g_two "h1" "h0") []))).
Proof.
  assert (forall p, returns (notify_changed_ok (mgr_app doc_a1) p)) as Hret.
  { intros p. apply notify_changed_total. exact send_ok_total. }
  split; [apply Hret|].
  exact (notify_changed_twice send_ok (fun _ => "h1") (fun _ _ => "payload")
           (fun _ => 0%Z) (mgr_app doc_a1) (process0 (g_two "h1" "h0") [])
           (Hret (process0 (g_two "h1" "h0") []))
           (Hret (fst (notify_changed_ok (mgr_app doc_a1)
                         (process0 (g_two "h1" "h0") []))))).
Defined.

Lemma notify_changed_payload_witness :
  (7, "{message_type:'changed',config_name:'app',hash_code:'h1',data:{a:1}}")
    ∈ pass_sends (process0 (g_two "h1" "h0") [])
        (fst (notify_changed send_ok (fun _ => "h1") (fun _ => render) (fun _ => 0%Z)
                (mgr_app doc_a1) (process0 (g_two "h1" "h0") [])))
  /\ "{message_type:'changed',config_name:'app',hash_code:'h1',data:{a:1}}"
     = render
         (JObj [("message_type", JStr MT_CHANGED);
                ("config_name", JStr (ConfigManager.config_name (mgr_app doc_a1)));
                ("hash_code", JStr "h1");
                ("data", JObj (ConfigManager._source_data (mgr_app doc_a1)))]).
Proof.
  assert ((7, "{message_type:'changed',config_name:'app',hash_code:'h1',data:{a:1}}")
            ∈ pass_sends (process0 (g_two "h1" "h0") [])
                (fst (notify_changed send_ok (fun _ => "h1") (fun _ => render)
                        (fun _ => 0%Z) (mgr_app doc_a1)
                        (process0 (g_two "h1" "h0") [])))) as Hin.
  { replace (pass_sends _ _)
      with [(7, "{message_type:'changed',config_name:'app',hash_code:'h1',data:{a:1}}")]
      by (vm_compute; reflexivity).
    left. }
  split; [exact Hin|].
  exact (notify_changed_payload send_ok (fun _ => "h1") (fun _ => render) (fun _ => 0%Z)
           (mgr_app doc_a1) (process0 (g_two "h1" "h0") []) 7 _ Hin).
Defined.

(** ** More on ConfigManager *)

(** X17: [refresh] replaces the manager's document by what the backend
    read returns, and the fingerprint follows; when the read raises, the
    exception reaches the caller and the manager is as it was. *)
Theorem refresh_spec {B H : Type} `{BaseBackend B} (to_hash : document -> string)
    (w : ConfigManager.world B H) :
  (forall b' d, read (ConfigManager.store_backend w) = (b', inr d) ->
     snd (@ConfigManager.refresh B H _ w) = inr tt
     /\ ConfigManager.self (fst (@ConfigManager.refresh B H _ w))
        = ConfigManager.with_source_data d (ConfigManager.self w)
     /\ ConfigManager.hash_code to_hash
          (ConfigManager.self (fst (@ConfigManager.refresh B H _ w)))
        = to_hash d)
  /\ (forall b' e, read (ConfigManager.store_backend w) = (b', inl e) ->
        snd (@ConfigManager.refresh B H _ w) = inl e
        /\ ConfigManager.self (fst (@ConfigManager.refresh B H _ w)) = ConfigManager.self w).
Proof.
  split; intros b' x Hr; unfold ConfigManager.refresh, ConfigManager.store_backend_read,
    ConfigManager.set_source_data, ConfigManager.log, bind, modify; simpl; rewrite Hr; done.
Qed.

(** X18: when the backend write returns and the read of the refresh
    raises, [update_config] raises that exception with the store already
    written, the manager's document left as the caller set it, and no
    notification callback invoked. *)
Theorem update_config_read_failure {B H : Type} `{BaseBackend B}
    (handlers : list (ConfigManager.t -> Py H unit))
    (w : ConfigManager.world B H) (b' b'' : B) (e : exn) :
  write (ConfigManager._source_data (ConfigManager.self w)) (ConfigManager.store_backend w)
    = (b', inr tt) ->
  read b' = (b'', inl e) ->
  ConfigManager.update_config handlers w =
    ({| ConfigManager.self := ConfigManager.self w;
        ConfigManager.store_backend := b'';
        ConfigManager.env := ConfigManager.env w;
        ConfigManager.trace :=
          ConfigManager.trace w
          ++ [ConfigManager.EWrite (ConfigManager._source_data (ConfigManager.self w));
              ConfigManager.ERead] |},
     inl e).
Proof.
  intros Hw Hr.
  unfold ConfigManager.update_config, ConfigManager.refresh, ConfigManager.source_data,
    ConfigManager.store_backend_write, ConfigManager.store_backend_read,
    ConfigManager.set_source_data, ConfigManager.log, bind, modify.
  simpl. rewrite Hw. simpl. rewrite Hr. simpl. by rewrite <- app_assoc.
Qed.

(** X19: after the backend write returns, the manager's document is
    whatever the backend read returns, equal to what was written or not,
    and every callback that is invoked receives the manager holding that
    document. *)
Theorem update_config_sourced_from_storage {B H : Type} `{BaseBackend B}
    (handlers : list (ConfigManager.t -> Py H unit))
    (w : ConfigManager.world B H) (b' b'' : B) (d' : document) :
  write (ConfigManager._source_data (ConfigManager.self w)) (ConfigManager.store_backend w)
    = (b', inr tt) ->
  read b' = (b'', inr d') ->
  ConfigManager._source_data
    (ConfigManager.self (fst (ConfigManager.update_config handlers w))) = d'
  /\ (forall i m,
        (i, m) ∈ notified (ConfigManager.trace (fst (ConfigManager.update_config handlers w)))
        -> (i, m) ∈ notified (ConfigManager.trace w)
           \/ m = ConfigManager.with_source_data d' (ConfigManager.self w)).
Proof.
  intros Hw Hr. rewrite (update_config_write_read handlers w b' b'' d' Hw Hr).
  match goal with
  | |- context [for_each _ _ ?w2] =>
      destruct (for_each_handlers handlers 0 w2) as (Hself & _ & k & _ & Htr & _)
  end.
  rewrite Hself, Htr. simpl. split; [done|].
  intros i m. unfold notified. rewrite !omap_app. simpl. rewrite app_nil_r.
  rewrite elem_of_app. intros [Hold|Hnew]; [by left|right].
  apply list_elem_of_omap in Hnew as (ev & Hev & Hsome).
  apply list_elem_of_fmap in Hev as (j & -> & _). by injection Hsome as _ <-.
Qed.

Lemma update_config_read_failure_witness :
  snd (@ConfigManager.update_config document unit unreadable_backend
         [handler_returns] (world0 doc_a1 tt))
  = inl (ExternalError "invalid JSON")
  /\ ConfigManager.store_backend
       (fst (@ConfigManager.update_config document unit unreadable_backend
               [handler_returns] (world0 doc_a1 tt)))
     = doc_a1
  /\ notified
       (ConfigManager.trace
          (fst (@ConfigManager.update_config document unit unreadable_backend
                  [handler_returns] (world0 doc_a1 tt))))
     = [].
Proof.
  rewrite (@update_config_read_failure document unit unreadable_backend
             [handler_returns] (world0 doc_a1 tt) doc_a1 doc_a1
             (ExternalError "invalid JSON") eq_refl eq_refl).
  repeat split.
Defined.

Lemma update_config_sourced_from_storage_witness :
  Fingerprint.sort_entries doc_ba <> doc_ba
  /\ ConfigManager._source_data
       (ConfigManager.self
          (fst (@ConfigManager.update_config document unit sorting_backend
                  [handler_returns] (world0 doc_ba tt))))
     = Fingerprint.sort_entries doc_ba.
Proof.
  split; [vm_compute; discriminate|].
  exact (proj1 (@update_config_sourced_from_storage document unit sorting_backend
                  [handler_returns] (world0 doc_ba tt)
                  (Fingerprint.sort_entries doc_ba) (Fingerprint.sort_entries doc_ba)
                  (Fingerprint.sort_entries doc_ba) eq_refl eq_refl)).
Defined.

(** X20: constructing a manager assigns its name and its store
    directory (the default one when none or the empty string is given)
    and loads the document with one backend read; when that read raises,
    the constructor raises. *)
Theorem ConfigManager_init_spec {B H : Type} `{BaseBackend B}
    (STORE_DIRECTORY name : string) (store_directory : option string) (b : B) (h : H) :
  (forall b' d, read b = (b', inr d) ->
     @ConfigManager.__init__ B H _ STORE_DIRECTORY name store_directory b h =
       ({| ConfigManager.self :=
             {| ConfigManager.config_name := name;
                ConfigManager.store_directory :=
                  match store_directory with
                  | Some dir => if String.eqb dir EmptyString then STORE_DIRECTORY else dir
                  | None => STORE_DIRECTORY
                  end;
                ConfigManager._source_data := d |};
           ConfigManager.store_backend := b';
           ConfigManager.env := h;
           ConfigManager.trace := [ConfigManager.ERead] |}, inr tt))
  /\ (forall b' e, read b = (b', inl e) ->
        snd (@ConfigManager.__init__ B H _ STORE_DIRECTORY name store_directory b h) = inl e).
Proof.
  split; intros b' x Hr;
    unfold ConfigManager.__init__, ConfigManager.refresh, ConfigManager.store_backend_read,
      ConfigManager.set_source_data, ConfigManager.log, bind, modify; simpl; rewrite Hr; done.
Qed.

(** ** More on Message *)

(** X21: all messages built without a [context] argument share one
    dict: after [to_dict] on one of them, any other one reads the first
    one's request headers in its own [context]. *)
Theorem to_dict_shared_default json_dumps strftime convert_dt
    (req1 req2 : Request) (mt1 mt2 name1 name2 hc1 hc2 : string)
    (data1 data2 : option dict_ref) (lut1 lut2 : option Z) (indent : nat) (h : heap) :
  Message.v_context
    (Message.view
       (fst (Message.to_dict json_dumps strftime
               (Message.new convert_dt req1 mt1 name1 hc1 data1 None lut1) indent h))
       (Message.new convert_dt req2 mt2 name2 hc2 data2 None lut2))
  = dict_setitem "headers" (JObj (dict_of_items (headers req1))) (deref h default_context)
  /\ dict_get "headers"
       (Message.v_context
          (Message.view
             (fst (Message.to_dict json_dumps strftime
                     (Message.new convert_dt req1 mt1 name1 hc1 data1 None lut1) indent h))
             (Message.new convert_dt req2 mt2 name2 hc2 data2 None lut2)))
     = Some (JObj (dict_of_items (headers req1))).
Proof.
  rewrite to_dict_heap. unfold Message.view, Message.new. simpl.
  rewrite deref_insert_eq. split; [done|apply dict_get_setitem_eq].
Qed.

(** X22: with [indent] 0, [to_dict] hands out the message's context
    dict itself, not a copy: when a second message sharing that dict is
    serialized, the dict the first call returned shows the second
    request's headers. *)
Theorem to_dict_returns_alias json_dumps strftime
    (m1 m2 : Message.t) (indent : nat) (h : heap) :
  Message.context m1 = Message.context m2 ->
  (exists r, snd (Message.to_dict json_dumps strftime m1 0 h) = inr r
             /\ Message.d_context r = inl (Message.context m1))
  /\ dict_get "headers"
       (deref
          (fst (Message.to_dict json_dumps strftime m2 indent
                  (fst (Message.to_dict json_dumps strftime m1 0 h))))
          (Message.context m1))
     = Some (JObj (dict_of_items (headers (Message.request m2)))).
Proof.
  intros Hctx. split; [eexists; split; reflexivity|].
  rewrite !to_dict_heap, Hctx, deref_insert_eq. apply dict_get_setitem_eq.
Qed.

Lemma to_dict_returns_alias_witness :
  Message.context (msg_app "h1") = Message.context (msg_web "h2")
  /\ dict_get "headers"
       (deref
          (fst (Message.to_dict (fun _ => render) (fun _ => "now") (msg_web "h2") 0
                  (fst (Message.to_dict (fun _ => render) (fun _ => "now")
                          (msg_app "h1") 0 ∅))))
          (Message.context (msg_app "h1")))
     = Some (JObj (dict_of_items (headers (Message.request (msg_web "h2"))))).
Proof.
  split; [reflexivity|].
  exact (proj2 (to_dict_returns_alias (fun _ => render) (fun _ => "now")
                  (msg_app "h1") (msg_web "h2") 0 ∅ eq_refl)).
Defined.

(** ** [init_config_store] *)

(** A property kept by every iteration is kept by the loop, returned or
    not. *)
Lemma for_each_preserves {S A : Type} (I : S -> Prop) (body : A -> Py S unit)
    (l : list A) :
  (forall x s, I s -> I (fst (body x s))) ->
  forall s, I s -> I (fst (for_each l body s)).
Proof.
  intros Hstep. induction l as [|x l IH]; intros s Hs; [done|].
  simpl. unfold bind. specialize (Hstep x s Hs).
  destruct (body x s) as [s' [e|[]]]; simpl in *; [done|by apply IH].
Qed.

(** A loop that returns ran every iteration to its end. *)
Lemma for_each_returns_cons {S A : Type} (body : A -> Py S unit) (x : A) (l : list A)
    (s : S) :
  returns (for_each (x :: l) body s) ->
  snd (body x s) = inr tt
  /\ for_each (x :: l) body s = for_each l body (fst (body x s)).
Proof.
  simpl. unfold bind. destruct (body x s) as [s' [e|[]]]; simpl; [|done].
  intros [a Ha]. discriminate Ha.
Qed.

Section InitConfigStoreFacts.

Context {F : Type}.
Variable STORE_DIRECTORY : string.
Variable abspath : string -> string.
Variable directory_exists : string -> F -> bool.
Variable makedirs : string -> Py F unit.
Variable walk : string -> F -> list (list string).
Variable splitext : string -> string * string.
Variable backend_of : string -> string -> BaseBackend F.

Implicit Types (st : startup F) (name : string).

Lemma new_ConfigManager_spec name st :
  st_module (fst (new_ConfigManager STORE_DIRECTORY backend_of name st)) = st_module st
  /\ forall m, snd (new_ConfigManager STORE_DIRECTORY backend_of name st) = inr m ->
       ConfigManager.config_name m = name
       /\ ConfigManager.store_directory m = STORE_DIRECTORY.
Proof.
  unfold new_ConfigManager, ConfigManager.__init__, ConfigManager.refresh,
    ConfigManager.store_backend_read, ConfigManager.set_source_data, ConfigManager.log,
    bind, modify. simpl.
  destruct (@read F (backend_of STORE_DIRECTORY name) (fs st)) as [f [e|d]]; simpl.
  - split; [done|]. intros m Hm. discriminate Hm.
  - split; [done|]. by intros m [= <-].
Qed.

(** One file, in closed form. *)
Lemma load_file_eq (file_name : string) st :
  load_file STORE_DIRECTORY splitext backend_of file_name st =
  if bool_decide (snd (splitext file_name) ∈ extension_backend)
  then
    match snd (new_ConfigManager STORE_DIRECTORY backend_of (fst (splitext file_name)) st) with
    | inr m =>
        ({| st_module :=
              {| connected :=
                   match connected (st_module st) !! fst (splitext file_name) with
                   | Some _ => connected (st_module st)
                   | None => <[fst (splitext file_name) := ∅]> (connected (st_module st))
                   end;
                 connected_message := connected_message (st_module st);
                 config_store_state :=
                   <[fst (splitext file_name) := m]> (config_store_state (st_module st)) |};
            fs := fs (fst (new_ConfigManager STORE_DIRECTORY backend_of
                             (fst (splitext file_name)) st)) |}, inr tt)
    | inl e =>
        (fst (new_ConfigManager STORE_DIRECTORY backend_of (fst (splitext file_name)) st),
         inl e)
    end
  else (st, inr tt).
Proof.
  unfold load_file.
  destruct (bool_decide (snd (splitext file_name) ∈ extension_backend)); simpl; [|done].
  unfold bind.
  pose proof (new_ConfigManager_spec (fst (splitext file_name)) st) as [Hmod _].
  destruct (new_ConfigManager STORE_DIRECTORY backend_of (fst (splitext file_name)) st)
    as [st1 [e|m]]; simpl in *; [done|].
  unfold on_globals, connected_setdefault, modify. simpl. by rewrite Hmod.
Qed.

(** What one file keeps: the subscriber sets already there and the
    stored messages. *)
Lemma load_file_keeps (g0 : globals) (file_name : string) st :
  (forall name s, connected g0 !! name = Some s -> connected (st_module st) !! name = Some s)
  /\ connected_message (st_module st) = connected_message g0 ->
  (forall name s, connected g0 !! name = Some s ->
     connected (st_module (fst (load_file STORE_DIRECTORY splitext backend_of file_name st)))
       !! name = Some s)
  /\ connected_message
       (st_module (fst (load_file STORE_DIRECTORY splitext backend_of file_name st)))
     = connected_message g0.
Proof.
  intros [Hc Hm]. rewrite load_file_eq.
  destruct (bool_decide (snd (splitext file_name) ∈ extension_backend)); [|done].
  pose proof (new_ConfigManager_spec (fst (splitext file_name)) st) as [Hmod _].
  destruct (snd (new_ConfigManager STORE_DIRECTORY backend_of (fst (splitext file_name)) st))
    as [e|m]; simpl.
  - by rewrite Hmod.
  - split; [|done]. intros name s Hs. specialize (Hc name s Hs).
    destruct (connected (st_module st) !! fst (splitext file_name)) eqn:Hn; [done|].
    rewrite lookup_insert_ne; [done|]. intros <-. congruence.
Qed.

(** What one file establishes: every manager of the table sits under
    its own name, uses the default store directory, and has a subscriber
    set. *)
Lemma load_file_covers (file_name : string) st :
  (forall name m, config_store_state (st_module st) !! name = Some m ->
     is_Some (connected (st_module st) !! name)
     /\ ConfigManager.config_name m = name
     /\ ConfigManager.store_directory m = STORE_DIRECTORY) ->
  forall name m,
    config_store_state
      (st_module (fst (load_file STORE_DIRECTORY splitext backend_of file_name st)))
      !! name = Some m ->
    is_Some (connected
               (st_module (fst (load_file STORE_DIRECTORY splitext backend_of file_name st)))
               !! name)
    /\ ConfigManager.config_name m = name
    /\ ConfigManager.store_directory m = STORE_DIRECTORY.
Proof.
  intros Hinv name m. rewrite load_file_eq.
  destruct (bool_decide (snd (splitext file_name) ∈ extension_backend)); [|apply Hinv].
  pose proof (new_ConfigManager_spec (fst (splitext file_name)) st) as [Hmod Hnew].
  destruct (snd (new_ConfigManager STORE_DIRECTORY backend_of (fst (splitext file_name)) st))
    as [e|m'] eqn:Hr; simpl.
  - rewrite Hmod. apply Hinv.
  - destruct (decide (fst (splitext file_name) = name)) as [<-|Hne].
    + rewrite lookup_insert_eq. intros [= <-]. split; [|by apply Hnew].
      destruct (connected (st_module st) !! fst (splitext file_name)) eqn:Hn; [by eauto|].
      rewrite lookup_insert_eq. by eauto.
    + rewrite lookup_insert_ne by done. intros Hm.
      destruct (Hinv name m Hm) as ([s Hs] & ? & ?). split; [|done].
      destruct (connected (st_module st) !! fst (splitext file_name)); [by eauto|].
      rewrite lookup_insert_ne by done. by eauto.
Qed.

End InitConfigStoreFacts.

Section InitConfigStoreTheorems.

Context {F : Type}.
Variable STORE_DIRECTORY : string.
Variable abspath : string -> string.
Variable directory_exists : string -> F -> bool.
Variable makedirs : string -> Py F unit.
Variable walk : string -> F -> list (list string).
Variable splitext : string -> string * string.
Variable backend_of : string -> string -> BaseBackend F.

Implicit Types (st : startup F) (name : string).

(** The two loops, run from the state [st]. *)
Lemma init_config_store_eq st :
  init_config_store STORE_DIRECTORY abspath directory_exists makedirs walk splitext
    backend_of st =
  if directory_exists (abspath STORE_DIRECTORY) (fs st)
  then
    for_each (walk (abspath STORE_DIRECTORY) (fs st))
      (fun file_names =>
         for_each file_names (load_file STORE_DIRECTORY splitext backend_of))
      {| st_module := set_config_store_state (fun _ => ∅) (st_module st); fs := fs st |}
  else
    match makedirs (abspath STORE_DIRECTORY) (fs st) with
    | (f, inr _) =>
        for_each (walk (abspath STORE_DIRECTORY) f)
          (fun file_names =>
             for_each file_names (load_file STORE_DIRECTORY splitext backend_of))
          {| st_module := set_config_store_state (fun _ => ∅) (st_module st); fs := f |}
    | (f, inl e) =>
        ({| st_module := set_config_store_state (fun _ => ∅) (st_module st); fs := f |},
         inl e)
    end.
Proof.
  unfold init_config_store, on_globals, on_fs, bind, modify, get_state, pass, ret. simpl.
  destruct (directory_exists (abspath STORE_DIRECTORY) (fs st)); simpl; [done|].
  by destruct (makedirs (abspath STORE_DIRECTORY) (fs st)) as [f [e|[]]].
Qed.

(** A property of the module globals that the reset establishes and
    every file keeps holds when [init_config_store] ends. *)
Lemma init_config_store_preserves (I : globals -> Prop) st :
  I (set_config_store_state (fun _ => ∅) (st_module st)) ->
  (forall file_name st', I (st_module st') ->
     I (st_module (fst (load_file STORE_DIRECTORY splitext backend_of file_name st')))) ->
  I (st_module
       (fst (init_config_store STORE_DIRECTORY abspath directory_exists makedirs walk
               splitext backend_of st))).
Proof.
  intros Hreset Hstep. rewrite init_config_store_eq.
  assert (forall l st', I (st_module st') ->
            I (st_module
                 (fst (for_each l
                         (fun file_names =>
                            for_each file_names
                              (load_file STORE_DIRECTORY splitext backend_of)) st'))))
    as Hloops.
  { intros l st' Hst'.
    apply (for_each_preserves (fun s => I (st_module s))); [|done].
    intros file_names s Hs.
    by apply (for_each_preserves (fun s => I (st_module s))). }
  destruct (directory_exists (abspath STORE_DIRECTORY) (fs st)); [by apply Hloops|].
  destruct (makedirs (abspath STORE_DIRECTORY) (fs st)) as [f [e|[]]]; [done|].
  by apply Hloops.
Qed.

(** X23: when [init_config_store] ends, returned or not, every manager
    of the table sits under its own config name, uses the default store
    directory and has a subscriber set in [connected]; so
    [register_connected_ws] returns for every message that names a live
    config. *)
Theorem init_config_store_covers st :
  (forall name m,
     config_store_state
       (st_module (fst (init_config_store STORE_DIRECTORY abspath directory_exists
                          makedirs walk splitext backend_of st))) !! name = Some m ->
     is_Some (connected
                (st_module (fst (init_config_store STORE_DIRECTORY abspath
                                   directory_exists makedirs walk splitext backend_of st)))
                !! name)
     /\ ConfigManager.config_name m = name
     /\ ConfigManager.store_directory m = STORE_DIRECTORY)
  /\ (forall message ws,
        is_Some (config_store_state
                   (st_module (fst (init_config_store STORE_DIRECTORY abspath
                                      directory_exists makedirs walk splitext
                                      backend_of st)))
                   !! Message.config_name message) ->
        snd (register_connected_ws message ws
               (st_module (fst (init_config_store STORE_DIRECTORY abspath directory_exists
                                  makedirs walk splitext backend_of st))))
        = inr tt).
Proof.
  assert (forall name m,
     config_store_state
       (st_module (fst (init_config_store STORE_DIRECTORY abspath directory_exists
                          makedirs walk splitext backend_of st))) !! name = Some m ->
     is_Some (connected
                (st_module (fst (init_config_store STORE_DIRECTORY abspath
                                   directory_exists makedirs walk splitext backend_of st)))
                !! name)
     /\ ConfigManager.config_name m = name
     /\ ConfigManager.store_directory m = STORE_DIRECTORY) as Hcov.
  { apply (init_config_store_preserves
             (fun g => forall name m, config_store_state g !! name = Some m ->
                         is_Some (connected g !! name)
                         /\ ConfigManager.config_name m = name
                         /\ ConfigManager.store_directory m = STORE_DIRECTORY)).
    - intros name m Hm. simpl in Hm. rewrite lookup_empty in Hm. discriminate Hm.
    - intros file_name st' Hst'. by apply load_file_covers. }
  split; [exact Hcov|].
  intros message ws [m Hm]. destruct (Hcov _ _ Hm) as ([s Hs] & _ & _).
  by rewrite register_connected_ws_eq, Hs.
Qed.

(** X24: [init_config_store] keeps every subscriber set that was there
    and every stored message, whatever it finds on disk and whether it
    returns or raises; a registry that was consistent stays consistent. *)
Theorem init_config_store_keeps_subscribers st :
  (forall name s, connected (st_module st) !! name = Some s ->
     connected
       (st_module (fst (init_config_store STORE_DIRECTORY abspath directory_exists
                          makedirs walk splitext backend_of st))) !! name = Some s)
  /\ connected_message
       (st_module (fst (init_config_store STORE_DIRECTORY abspath directory_exists
                          makedirs walk splitext backend_of st)))
     = connected_message (st_module st)
  /\ (consistent (st_module st) ->
      consistent
        (st_module (fst (init_config_store STORE_DIRECTORY abspath directory_exists
                           makedirs walk splitext backend_of st)))).
Proof.
  assert ((forall name s, connected (st_module st) !! name = Some s ->
     connected
       (st_module (fst (init_config_store STORE_DIRECTORY abspath directory_exists
                          makedirs walk splitext backend_of st))) !! name = Some s)
  /\ connected_message
       (st_module (fst (init_config_store STORE_DIRECTORY abspath directory_exists
                          makedirs walk splitext backend_of st)))
     = connected_message (st_module st)) as [Hc Hm].
  { apply (init_config_store_preserves
             (fun g => (forall name s, connected (st_module st) !! name = Some s ->
                          connected g !! name = Some s)
                       /\ connected_message g = connected_message (st_module st))).
    - done.
    - intros file_name st' Hst'. by apply load_file_keeps. }
  split; [exact Hc|]. split; [exact Hm|].
  intros Hcons ws message Hmsg. rewrite Hm in Hmsg.
  destruct (Hcons ws message Hmsg) as (s & Hs & Hin). exists s. split; [by apply Hc|done].
Qed.

End InitConfigStoreTheorems.

Section InitConfigStoreDiscovery.

Context {F : Type}.
Variable STORE_DIRECTORY : string.
Variable abspath : string -> string.
Variable directory_exists : string -> F -> bool.
Variable makedirs : string -> Py F unit.
Variable walk : string -> F -> list (list string).
Variable splitext : string -> string * string.
Variable backend_of : string -> string -> BaseBackend F.

Implicit Types (st : startup F) (name : string).

Lemma discovered_app (l1 l2 : list string) :
  discovered splitext (l1 ++ l2) = discovered splitext l1 ∪ discovered splitext l2.
Proof. unfold discovered. by rewrite omap_app, list_to_set_app_L. Qed.

Lemma discovered_cons (file_name : string) (l : list string) :
  discovered splitext (file_name :: l)
  = (if bool_decide (snd (splitext file_name) ∈ extension_backend)
     then {[fst (splitext file_name)]} else ∅) ∪ discovered splitext l.
Proof.
  unfold discovered. simpl.
  destruct (bool_decide (snd (splitext file_name) ∈ extension_backend)); simpl; [done|].
  by rewrite union_empty_l_L.
Qed.

Lemma load_file_returns_dom (file_name : string) st :
  snd (load_file STORE_DIRECTORY splitext backend_of file_name st) = inr tt ->
  dom (config_store_state
         (st_module (fst (load_file STORE_DIRECTORY splitext backend_of file_name st))))
  = dom (config_store_state (st_module st))
    ∪ (if bool_decide (snd (splitext file_name) ∈ extension_backend)
       then {[fst (splitext file_name)]} else ∅).
Proof.
  rewrite load_file_eq.
  destruct (bool_decide (snd (splitext file_name) ∈ extension_backend)); simpl;
    [|by rewrite union_empty_r_L].
  destruct (snd (new_ConfigManager STORE_DIRECTORY backend_of (fst (splitext file_name)) st))
    as [e|m]; simpl; [done|].
  intros _. rewrite dom_insert_L. set_solver.
Qed.

Lemma load_files_returns_dom (l : list string) :
  forall st,
    returns (for_each l (load_file STORE_DIRECTORY splitext backend_of) st) ->
    dom (config_store_state
           (st_module (fst (for_each l (load_file STORE_DIRECTORY splitext backend_of) st))))
    = dom (config_store_state (st_module st)) ∪ discovered splitext l.
Proof.
  induction l as [|file_name l IH]; intros st Hret.
  - simpl. unfold discovered. simpl. by rewrite union_empty_r_L.
  - destruct (for_each_returns_cons _ _ _ _ Hret) as [Hbody Heq].
    rewrite Heq in Hret |- *. rewrite (IH _ Hret), (load_file_returns_dom _ _ Hbody).
    rewrite discovered_cons. set_solver.
Qed.

Lemma load_dirs_returns_dom (dirs : list (list string)) :
  forall st,
    returns (for_each dirs
               (fun file_names =>
                  for_each file_names (load_file STORE_DIRECTORY splitext backend_of)) st) ->
    dom (config_store_state
           (st_module
              (fst (for_each dirs
                      (fun file_names =>
                         for_each file_names
                           (load_file STORE_DIRECTORY splitext backend_of)) st))))
    = dom (config_store_state (st_module st)) ∪ discovered splitext (concat dirs).
Proof.
  induction dirs as [|file_names dirs IH]; intros st Hret.
  - simpl. unfold discovered. simpl. by rewrite union_empty_r_L.
  - destruct (for_each_returns_cons _ _ _ _ Hret) as [Hbody Heq].
    rewrite Heq in Hret |- *. rewrite (IH _ Hret).
    rewrite load_files_returns_dom by (exists tt; exact Hbody).
    simpl. rewrite discovered_app. set_solver.
Qed.

(** The names of the manager table when start-up returns. *)
Lemma init_config_store_dom st :
  returns (init_config_store STORE_DIRECTORY abspath directory_exists makedirs walk
             splitext backend_of st) ->
  dom (config_store_state
         (st_module (fst (init_config_store STORE_DIRECTORY abspath directory_exists
                            makedirs walk splitext backend_of st))))
  = discovered splitext
      (concat (walk (abspath STORE_DIRECTORY)
                 (if directory_exists (abspath STORE_DIRECTORY) (fs st)
                  then fs st
                  else fst (makedirs (abspath STORE_DIRECTORY) (fs st))))).
Proof.
  rewrite init_config_store_eq.
  destruct (directory_exists (abspath STORE_DIRECTORY) (fs st)).
  - intros Hret. rewrite (load_dirs_returns_dom _ _ Hret). simpl.
    by rewrite dom_empty_L, union_empty_l_L.
  - destruct (makedirs (abspath STORE_DIRECTORY) (fs st)) as [f [e|[]]]; simpl.
    + intros [a Ha]. discriminate Ha.
    + intros Hret. rewrite (load_dirs_returns_dom _ _ Hret). simpl.
      by rewrite dom_empty_L, union_empty_l_L.
Qed.

(** X25: when [init_config_store] returns, the config names of the
    manager table are exactly the roots of the walked file names whose
    extension has a backend; managers recorded before the call are
    gone. *)
Theorem init_config_store_discovers st :
  returns (init_config_store STORE_DIRECTORY abspath directory_exists makedirs walk
             splitext backend_of st) ->
  dom (config_store_state
         (st_module (fst (init_config_store STORE_DIRECTORY abspath directory_exists
                            makedirs walk splitext backend_of st))))
  = discovered splitext
      (concat (walk (abspath STORE_DIRECTORY)
                 (if directory_exists (abspath STORE_DIRECTORY) (fs st)
                  then fs st
                  else fst (makedirs (abspath STORE_DIRECTORY) (fs st))))).
Proof. apply init_config_store_dom. Qed.

(** X26: after a start-up that returned, [get_config_store] returns a
    manager named as asked for every name the walk discovered, and
    raises "config not found", changing nothing, for every other name. *)
Theorem get_config_store_after_init st name :
  returns (init_config_store STORE_DIRECTORY abspath directory_exists makedirs walk
             splitext backend_of st) ->
  (name ∈ discovered splitext
            (concat (walk (abspath STORE_DIRECTORY)
                       (if directory_exists (abspath STORE_DIRECTORY) (fs st)
                        then fs st
                        else fst (makedirs (abspath STORE_DIRECTORY) (fs st))))) ->
   exists m,
     get_config_store name
       (st_module (fst (init_config_store STORE_DIRECTORY abspath directory_exists
                          makedirs walk splitext backend_of st)))
     = (st_module (fst (init_config_store STORE_DIRECTORY abspath directory_exists
                          makedirs walk splitext backend_of st)), inr m)
     /\ ConfigManager.config_name m = name)
  /\ (name ∉ discovered splitext
             (concat (walk (abspath STORE_DIRECTORY)
                        (if directory_exists (abspath STORE_DIRECTORY) (fs st)
                         then fs st
                         else fst (makedirs (abspath STORE_DIRECTORY) (fs st))))) ->
      get_config_store name
        (st_module (fst (init_config_store STORE_DIRECTORY abspath directory_exists
                           makedirs walk splitext backend_of st)))
      = (st_module (fst (init_config_store STORE_DIRECTORY abspath directory_exists
                           makedirs walk splitext backend_of st)),
         inl (ProjectNoFoundException name))).
Proof.
  intros Hret. rewrite <- (init_config_store_dom st Hret).
  pose proof (init_config_store_preserves STORE_DIRECTORY abspath directory_exists
                makedirs walk splitext backend_of keyed_by_name st) as Hkeyed.
  split.
  - intros Hin. apply elem_of_dom in Hin as [m Hm]. exists m.
    split; [unfold get_config_store; py_unfold; by rewrite Hm|].
    apply Hkeyed with (name := name); [| |exact Hm].
    + intros name' m' Hm'. simpl in Hm'. rewrite lookup_empty in Hm'. discriminate Hm'.
    + intros file_name st' Hst' name' m'. rewrite load_file_eq.
      destruct (bool_decide (snd (splitext file_name) ∈ extension_backend)); [|apply Hst'].
      pose proof (new_ConfigManager_spec STORE_DIRECTORY backend_of
                    (fst (splitext file_name)) st') as [Hmod Hnew].
      destruct (snd (new_ConfigManager STORE_DIRECTORY backend_of
                       (fst (splitext file_name)) st')) as [e|m0]; simpl.
      * rewrite Hmod. apply Hst'.
      * destruct (decide (fst (splitext file_name) = name')) as [<-|Hne].
        -- rewrite lookup_insert_eq. intros [= <-]. by apply Hnew.
        -- rewrite lookup_insert_ne by done. apply Hst'.
  - intros Hnot. apply not_elem_of_dom in Hnot.
    by apply get_config_store_missing.
Qed.

End InitConfigStoreDiscovery.

Lemma init_two_returns (g : globals) :
  returns (init_two {| st_module := g; fs := fs_two |}).
Proof.
  exists tt. unfold init_two. rewrite init_config_store_eq. simpl.
  unfold bind. rewrite !load_file_eq. simpl. reflexivity.
Qed.

Lemma init_config_store_discovers_witness :
  returns (init_two {| st_module := g_none; fs := fs_two |})
  /\ dom (config_store_state
            (st_module (fst (init_two {| st_module := g_none; fs := fs_two |}))))
     = discovered splitext_two ["app.json"; "notes.txt"; "web.json"].
Proof.
  split; [apply init_two_returns|].
  exact (init_config_store_discovers "/var/rtconfig" (fun path => path) (fun _ _ => true)
           (fun _ => pass) walk_two splitext_two (fun _ name => dir_backend name)
           {| st_module := g_none; fs := fs_two |} (init_two_returns g_none)).
Defined.

Lemma get_config_store_after_init_witness :
  returns (init_two {| st_module := g_none; fs := fs_two |})
  /\ exists m,
       get_config_store "app"
         (st_module (fst (init_two {| st_module := g_none; fs := fs_two |})))
       = (st_module (fst (init_two {| st_module := g_none; fs := fs_two |})), inr m)
       /\ ConfigManager.config_name m = "app".
Proof.
  split; [apply init_two_returns|].
  apply (proj1 (get_config_store_after_init "/var/rtconfig" (fun path => path)
                  (fun _ _ => true) (fun _ => pass) walk_two splitext_two
                  (fun _ name => dir_backend name)
                  {| st_module := g_none; fs := fs_two |} "app"
                  (init_two_returns g_none))).
  unfold discovered. simpl. set_solver.
Defined.

(** X27: a document written by an update is what a manager constructed
    afterwards over the same store loads, provided the backend is
    faithful and reading leaves the store as it is: when the write of
    [update_config] returns, whether or not a callback raises later, a
    new manager reads [D]. *)
Theorem update_then_construct {B H : Type} `{BaseBackend B}
    (handlers : list (ConfigManager.t -> Py H unit)) (D : document)
    (w : ConfigManager.world B H) (b1 : B)
    (STORE_DIRECTORY name : string) (store_directory : option string) (h : H) :
  faithful B ->
  (forall b b' r, read b = (b', r) -> b' = b) ->
  write D (ConfigManager.store_backend w) = (b1, inr tt) ->
  snd (@ConfigManager.__init__ B H _ STORE_DIRECTORY name store_directory
         (ConfigManager.store_backend (fst (update_with handlers D w))) h) = inr tt
  /\ ConfigManager._source_data
       (ConfigManager.self
          (fst (@ConfigManager.__init__ B H _ STORE_DIRECTORY name store_directory
                  (ConfigManager.store_backend (fst (update_with handlers D w))) h)))
     = D.
Proof.
  intros Hfaithful Hstable Hw.
  destruct (Hfaithful _ _ _ Hw) as [b2 Hr].
  pose proof (Hstable _ _ _ Hr) as ->.
  assert (ConfigManager.store_backend (fst (update_with handlers D w)) = b1) as ->.
  { unfold update_with, bind, ConfigManager.set_source_data, modify. cbv beta iota.
    match goal with
    | |- context [ConfigManager.update_config handlers ?w1] =>
        rewrite (update_config_write_read handlers w1 b1 b1 D Hw Hr)
    end.
    match goal with
    | |- context [for_each _ _ ?w2] =>
        destruct (for_each_handlers handlers 0 w2) as (_ & Hstore & _)
    end.
    by rewrite Hstore. }
  unfold ConfigManager.__init__, ConfigManager.refresh, ConfigManager.store_backend_read,
    ConfigManager.set_source_data, ConfigManager.log, bind, modify. simpl.
  by rewrite Hr.
Qed.

Lemma file_backend_read_stable (b b' : document) (r : exn + document) :
  @read document file_backend b = (b', r) -> b' = b.
Proof. simpl. by intros [= <- _]. Qed.

Lemma update_then_construct_witness :
  @write document file_backend doc_a1
     (ConfigManager.store_backend (world0 [] (process0 (g_two "h1" "h1") tt)))
  = (doc_a1, inr tt)
  /\ ConfigManager._source_data
       (ConfigManager.self
          (fst (@ConfigManager.__init__ document (process unit) file_backend
                  "/var/rtconfig" "app" None
                  (ConfigManager.store_backend
                     (fst (@update_with document _ file_backend
                             [notify_changed_closed] doc_a1
                             (world0 [] (process0 (g_two "h1" "h1") tt)))))
                  (process0 g_none tt))))
     = doc_a1.
Proof.
  split; [reflexivity|].
  exact (proj2 (@update_then_construct document (process unit) file_backend
                  [notify_changed_closed] doc_a1
                  (world0 [] (process0 (g_two "h1" "h1") tt)) doc_a1
                  "/var/rtconfig" "app" None (process0 g_none tt)
                  file_backend_faithful file_backend_read_stable eq_refl)).
Defined.
